(** * kanji_colorizer.py: the Anki add-on of kanji-colorize

    A shallow embedding of [src/anki/kanji_colorizer.py] and the proofs of
    the properties its specification states.

    Python strings are sequences of Unicode code points, the configuration
    record is a dictionary of JSON values, the note is a mutable object whose
    fields are read and written by name, and the KanjiVG library and the
    Anki collection are reached through two interfaces. *)

From Stdlib Require Import ZArith NArith String Ascii List Floats Lia.
From Stdlib Require Import DecimalString.
From stdpp Require Import base option list gmap.

Set Warnings "-register-all".
Local Open Scope N_scope.

(** ** Python strings and values *)

(** A character is its code point, a [str] the list of its characters. *)
Abbreviation pychar := N (only parsing).
Abbreviation pystr := (list N) (only parsing).
Abbreviation bytes := (list Byte.byte) (only parsing).

Definition ord (c : pychar) : N := c.

(** An ASCII literal of the source as a Python string. *)
Definition lit (s : string) : pystr :=
  List.map N_of_ascii (list_ascii_of_string s).

(** [list(s)]: the characters of a string, in order. *)
Definition py_list (s : pystr) : list pychar := s.

(** The values a JSON configuration can hold. *)
Inductive pyval : Type :=
  | PNone
  | PBool (b : bool)
  | PInt (z : Z)
  | PFloat (f : float)
  | PStr (s : pystr)
  | PList (l : list pyval)
  | PDict (d : list (pystr * pyval)).

(** [type(v) is str] and [type(v) is bool], returning the payload. *)
Definition as_str (v : pyval) : option pystr :=
  match v with PStr s => Some s | _ => None end.

Definition as_bool (v : pyval) : option bool :=
  match v with PBool b => Some b | _ => None end.

(** [v == s] for a string literal [s]: only an equal [str] compares equal. *)
Definition py_eq_str (v : pyval) (s : pystr) : bool :=
  match v with
  | PStr t => bool_decide (t = s)
  | _ => false
  end.

(** Truth value of a value in an [if]. *)
Definition truthy (v : pyval) : bool :=
  match v with
  | PNone => false
  | PBool b => b
  | PInt z => negb (z =? 0)%Z
  | PFloat f => negb (PrimFloat.eqb f PrimFloat.zero)
  | PStr s => negb (bool_decide (s = []))
  | PList l => match l with [] => false | _ => true end
  | PDict d => match d with [] => false | _ => true end
  end.

(** [sub in s] on strings: [sub] occurs as a contiguous run of [s]. *)
Fixpoint starts_with (sub s : pystr) : bool :=
  match sub, s with
  | [], _ => true
  | _ :: _, [] => false
  | a :: sub', b :: s' => bool_decide (a = b) && starts_with sub' s'
  end.

Fixpoint str_contains (sub s : pystr) : bool :=
  starts_with sub s ||
  match s with
  | [] => false
  | _ :: s' => str_contains sub s'
  end.

(** [l[i]] on a list: negative indices count from the end. *)
Definition py_index {A} (l : list A) (i : Z) : option A :=
  let n := Z.of_nat (length l) in
  if (0 <=? i)%Z then l !! Z.to_nat i
  else if (- n <=? i)%Z then l !! Z.to_nat (n + i)
  else None.

(** [s.encode('utf_8')]: surrogates and values past U+10FFFF have no
    encoding. *)
Definition byte_of (n : N) : Byte.byte :=
  match Byte.of_N n with Some b => b | None => Byte.x00 end.

Definition utf8_char (c : pychar) : option bytes :=
  if c <? 128 then Some [byte_of c]
  else if c <? 2048 then
    Some [byte_of (192 + N.shiftr c 6); byte_of (128 + N.land c 63)]
  else if (55296 <=? c) && (c <=? 57343) then None
  else if c <? 65536 then
    Some [byte_of (224 + N.shiftr c 12);
          byte_of (128 + N.land (N.shiftr c 6) 63);
          byte_of (128 + N.land c 63)]
  else if c <? 1114112 then
    Some [byte_of (240 + N.shiftr c 18);
          byte_of (128 + N.land (N.shiftr c 12) 63);
          byte_of (128 + N.land (N.shiftr c 6) 63);
          byte_of (128 + N.land c 63)]
  else None.

Fixpoint utf8 (s : pystr) : option bytes :=
  match s with
  | [] => Some []
  | c :: s' =>
      match utf8_char c, utf8 s' with
      | Some b, Some bs => Some (b ++ bs)
      | _, _ => None
      end
  end.

(** ** Exceptions and outcomes *)

Inductive exn : Type :=
  | KeyError (key : pystr)
  | IndexError
  | TypeError
  | UnicodeEncodeError
  | InvalidCharacterError
  | OtherError (name : pystr).

Inductive outcome (A : Type) : Type :=
  | Return (a : A)
  | Raise (e : exn).
Arguments Return {A} a.
Arguments Raise {A} e.

(** ** The two external interfaces *)

(** What Python's [str] type offers beyond the above: [str(v)] and
    [s.lower()].  On ASCII text [lower] maps A-Z to a-z and nothing else. *)
Definition ascii_lower (c : pychar) : pychar :=
  if (65 <=? c) && (c <=? 90) then c + 32 else c.

Class PyStr := {
  py_str : pyval -> pystr;
  py_lower : pystr -> pystr;
  py_lower_ascii :
    forall s : pystr, Forall (fun c => c < 128) s ->
      py_lower s = List.map ascii_lower s
}.

(** The kanjicolorizer library: [KanjiColorizer(argstring)],
    [colorizer.get_colored_svg(c)] and [KanjiVG(c).ascii_filename]. *)
Class KanjiLib := {
  colorizer : Type;
  KanjiColorizer : pystr -> outcome colorizer;
  get_colored_svg : colorizer -> pychar -> outcome pystr;
  ascii_filename : pychar -> outcome pystr
}.

(** ** The host's data: models and notes *)

(** A model descriptor: [model['name']] and [model['flds'][i]['name']]. *)
Record field := { fld_name : pystr }.
Record model := { name : pystr; flds : list field }.

(** A note: [note.id], [note.model()] and its fields by name. *)
Record note := {
  note_id : Z;
  note_model : model;
  note_fields : gmap pystr pystr
}.

(** The note [n] with [value] stored in its field [key]. *)
Definition note_with (n : note) (key value : pystr) : note :=
  {| note_id := note_id n;
     note_model := note_model n;
     note_fields := <[key := value]> (note_fields n) |}.

(** [mw.col.models.fieldNames(model)]: the names of the model's fields. *)
Definition fieldNames (m : model) : list pystr :=
  List.map fld_name (flds m).

(** The Anki collection: [mw.col.media.strip], [mw.col.media.writeData]
    and [note.flush()].  The last two act on the collection and may fail. *)
Class AnkiHost := {
  collection : Type;
  media_strip : pystr -> pystr;
  media_writeData :
    pystr -> bytes -> collection -> outcome pystr * collection;
  flush : note -> collection -> outcome unit * collection
}.

(** The calls that leave a mark outside the note. *)
Inductive call : Type :=
  | Render (c : pychar)
  | WriteData (filename : pystr) (data : bytes)
  | Flush (n : note).

(** ** State and exceptions *)

Record state {host : AnkiHost} := {
  st_note : note;
  st_col : collection;
  st_calls : list call
}.

Definition M {host : AnkiHost} (A : Type) : Type :=
  state -> outcome A * state.

Section Monad.
Context {host : AnkiHost}.

Definition ret {A} (a : A) : M A := fun st => (Return a, st).
Definition raise {A} (e : exn) : M A := fun st => (Raise e, st).
Definition bind {A B} (c : M A) (k : A -> M B) : M B :=
  fun st =>
    match c st with
    | (Return a, st') => k a st'
    | (Raise e, st') => (Raise e, st')
    end.
Definition lift {A} (o : outcome A) : M A := fun st => (o, st).
Definition get_note : M note := fun st => (Return (st_note st), st).
Definition set_note (n : note) : M unit :=
  fun st => (Return tt,
             {| st_note := n; st_col := st_col st; st_calls := st_calls st |}).
Definition record (c : call) : M unit :=
  fun st => (Return tt,
             {| st_note := st_note st; st_col := st_col st;
                st_calls := st_calls st ++ [c] |}).
Definition on_collection {A}
    (f : collection -> outcome A * collection) : M A :=
  fun st =>
    let (o, col') := f (st_col st) in
    (o, {| st_note := st_note st; st_col := col';
           st_calls := st_calls st |}).
End Monad.

Declare Scope py_scope.
Delimit Scope py_scope with py.
Notation "x <- c ;; k" := (bind c (fun x => k))
  (at level 100, c at next level, right associativity) : py_scope.
Notation "c ;; k" := (bind c (fun _ => k))
  (at level 100, right associativity) : py_scope.

(** Exceptions without state, for the constructor. *)
Definition obind {A B} (o : outcome A) (k : A -> outcome B) : outcome B :=
  match o with
  | Return a => k a
  | Raise e => Raise e
  end.

Declare Scope outcome_scope.
Delimit Scope outcome_scope with outcome.
Notation "x <- c ;; k" := (obind c (fun x => k))
  (at level 100, c at next level, right associativity) : outcome_scope.

(** [d[k]] on a dictionary. *)
Definition dict_get (d : gmap pystr pyval) (k : pystr) : outcome pyval :=
  match d !! k with
  | Some v => Return v
  | None => Raise (KeyError k)
  end.

(** [config += v] where [config] is a [str]. *)
Definition str_add (config : pystr) (v : pyval) : outcome pystr :=
  match v with
  | PStr s => Return (config ++ s)
  | _ => Raise TypeError
  end.

(** ** The add-on *)

Section Addon.
Context {py : PyStr} {lib : KanjiLib} {host : AnkiHost}.

(** [make_kanji_colorizer(data)] *)
Definition make_kanji_colorizer (data : gmap pystr pyval)
  : outcome colorizer :=
  (let config := lit "--mode " in
   mode <- dict_get data (lit "mode") ;;
   config <- str_add config mode ;;
   group_mode <- dict_get data (lit "group-mode") ;;
   let config :=
     if truthy group_mode then config ++ lit " --group-mode " else config in
   let config := config ++ lit " --saturation " in
   saturation <- dict_get data (lit "saturation") ;;
   let config := config ++ py_str saturation in
   let config := config ++ lit " --value " in
   value <- dict_get data (lit "value") ;;
   let config := config ++ py_str value in
   let config := config ++ lit " --image-size " in
   image_size <- dict_get data (lit "image-size") ;;
   let config := config ++ py_str image_size in
   KanjiColorizer config)%outcome.

(** [class Profile] *)
Record Profile := {
  kanji_colorizer : colorizer;
  model_name_substr : pystr;
  src_field : pystr;
  dst_field : pystr;
  overwrite_dest : bool;
  diagrammed_characters : pyval
}.

(** [Profile.__init__(self, data)] *)
Definition Profile_init (data : gmap pystr pyval) : outcome Profile :=
  (kc <- make_kanji_colorizer data ;;
   let model_name_substr :=
     match data !! lit "model" ≫= as_str with
     | Some s => py_lower s
     | None => lit "japanese"
     end in
   let src_field :=
     match data !! lit "src-field" ≫= as_str with
     | Some s => s
     | None => lit "Kanji"
     end in
   let dst_field :=
     match data !! lit "dst-field" ≫= as_str with
     | Some s => s
     | None => lit "Diagram"
     end in
   let overwrite_dest :=
     match data !! lit "overwrite-dest" ≫= as_bool with
     | Some b => b
     | None => true
     end in
   dc <- dict_get data (lit "diagrammed-characters") ;;
   Return {| kanji_colorizer := kc;
             model_name_substr := model_name_substr;
             src_field := src_field;
             dst_field := dst_field;
             overwrite_dest := overwrite_dest;
             diagrammed_characters := dc |})%outcome.

(** [Profile.model_is_correct_type(self, model)] *)
Definition model_is_correct_type (self : Profile) (m : model) : M bool :=
  (let model_name := py_lower (name m) in
   let fields := fieldNames m in
   ret (str_contains (model_name_substr self) model_name &&
        bool_decide (src_field self ∈ fields) &&
        bool_decide (dst_field self ∈ fields)))%py.

(** [is_kanji(c)] *)
Definition is_kanji (c : pychar) : bool :=
  (19968 <=? ord c) && (ord c <=? 40879).

(** [Profile.characters_to_colorize(self, s)] *)
Definition characters_to_colorize (self : Profile) (s : pystr)
  : list pychar :=
  if py_eq_str (diagrammed_characters self) (lit "all") then
    py_list s
  else if py_eq_str (diagrammed_characters self) (lit "kanji") then
    List.filter is_kanji s
  else
    let just_kanji := List.filter is_kanji s in
    if (1 <=? length just_kanji)%nat then just_kanji
    else py_list s.

(** [note[key]] and [note[key] = value]; both need [key] to be a field of
    the note. *)
Definition note_getitem (key : pystr) : M pystr :=
  (n <- get_note ;;
   match note_fields n !! key with
   | Some v => ret v
   | None => raise (KeyError key)
   end)%py.

Definition note_setitem (key value : pystr) : M unit :=
  (n <- get_note ;;
   match note_fields n !! key with
   | Some _ => set_note (note_with n key value)
   | None => raise (KeyError key)
   end)%py.

(** [note.flush()] *)
Definition note_flush : M unit :=
  (n <- get_note ;;
   record (Flush n) ;;
   on_collection (flush n))%py.

(** [s.encode('utf_8')] *)
Definition encode_utf_8 (s : pystr) : M bytes :=
  match utf8 s with
  | Some b => ret b
  | None => raise UnicodeEncodeError
  end.

(** ['<img src="{!s}">'.format(anki_fname)]; 34 is the double quote. *)
Definition img_tag (anki_fname : pystr) : pystr :=
  lit "<img src=" ++ [34] ++ anki_fname ++ [34] ++ lit ">".

(** One turn of the loop of [addKanji]: the new value of [dst]. *)
Definition colorize_character (self : Profile) (character : pychar)
    (dst : pystr) : M pystr :=
  match ascii_filename character with
  | Raise InvalidCharacterError => ret dst
  | Raise e => raise e
  | Return filename =>
      (record (Render character) ;;
       svg <- lift (get_colored_svg (kanji_colorizer self) character) ;;
       char_svg <- encode_utf_8 svg ;;
       record (WriteData filename char_svg) ;;
       anki_fname <- on_collection (media_writeData filename char_svg) ;;
       ret (dst ++ img_tag anki_fname))%py
  end.

(** The [for character in ...] loop of [addKanji]. *)
Fixpoint colorize_loop (self : Profile) (characters : list pychar)
    (dst : pystr) : M pystr :=
  match characters with
  | [] => ret dst
  | character :: rest =>
      (dst <- colorize_character self character dst ;;
       colorize_loop self rest dst)%py
  end.

(** [Profile.addKanji(self, note, flag, current_field_index)]; the note is
    the one held in the state. *)
Definition addKanji (self : Profile) (flag : bool)
    (current_field_index : option Z) : M bool :=
  (unrelated <-
     match current_field_index with
     | Some i =>
         n <- get_note ;;
         match py_index (flds (note_model n)) i with
         | Some f => ret (negb (bool_decide (fld_name f = src_field self)))
         | None => raise IndexError
         end
     | None => ret false
     end ;;
   if unrelated then ret flag else
   raw <- note_getitem (src_field self) ;;
   let srcTxt := media_strip raw in
   oldDst <- note_getitem (dst_field self) ;;
   dst <- colorize_loop self (characters_to_colorize self srcTxt) [] ;;
   if negb (bool_decide (oldDst = [])) && negb (overwrite_dest self) then
     ret flag
   else if negb (bool_decide (dst = oldDst)) && negb (bool_decide (dst = []))
   then
     note_setitem (dst_field self) dst ;;
     n <- get_note ;;
     (if negb (note_id n =? 0)%Z then note_flush else ret tt) ;;
     ret true
   else ret flag)%py.

(** [Profile(p)] for an element [p] of the configured list: only a
    dictionary can be indexed by a key. *)
Definition Profile_of (p : pyval) : outcome Profile :=
  match p with
  | PDict d => Profile_init (list_to_map d)
  | _ => Raise TypeError
  end.

(** [[f(x) for x in l]] for an [f] that may raise. *)
Fixpoint comprehension {A B} (f : A -> outcome B) (l : list A)
  : outcome (list B) :=
  match l with
  | [] => Return []
  | x :: l' =>
      (y <- f x ;;
       ys <- comprehension f l' ;;
       Return (y :: ys))%outcome
  end.

(** The module-level [profiles]: the profiles of
    [addon_config['profiles']], none when that value is false.  A true
    value that is not a list yields no dictionary when iterated. *)
Definition profiles (addon_config : gmap pystr pyval)
  : outcome (list Profile) :=
  (configured <- dict_get addon_config (lit "profiles") ;;
   let profiles_json := if truthy configured then configured else PList [] in
   match profiles_json with
   | PList l => comprehension Profile_of l
   | _ => Raise TypeError
   end)%outcome.

(** [onFocusLost(flag, note, currentFieldIndex)] over the loaded
    profiles; the note is the one held in the state. *)
Fixpoint onFocusLost (loaded : list Profile) (flag : bool)
    (currentFieldIndex : option Z) : M bool :=
  match loaded with
  | [] => ret flag
  | p :: rest =>
      (n <- get_note ;;
       correct <- model_is_correct_type p (note_model n) ;;
       if correct then addKanji p flag currentFieldIndex
       else onFocusLost rest flag currentFieldIndex)%py
  end.

End Addon.

(** ** The vocabulary of the specification *)

(** A code point of the kanji range. *)
Definition in_kanji_range (c : pychar) : Prop :=
  19968 <= ord c /\ ord c <= 40879.

(** [r] is the subsequence of the characters of [s] that lie in the kanji
    range, in their order in [s]. *)
Inductive kanji_subsequence : pystr -> list pychar -> Prop :=
  | ks_nil : kanji_subsequence [] []
  | ks_keep c s r :
      in_kanji_range c -> kanji_subsequence s r ->
      kanji_subsequence (c :: s) (c :: r)
  | ks_drop c s r :
      ~ in_kanji_range c -> kanji_subsequence s r ->
      kanji_subsequence (c :: s) r.

(** The mixed policy in the words of the specification: the kanji of [s]
    when there is one, all of [s] otherwise. *)
Definition mixed_selection (s : pystr) : list pychar :=
  if bool_decide (Exists in_kanji_range s)
  then List.filter (fun c => bool_decide (in_kanji_range c)) s
  else s.

(** A profile follows the mixed policy when its policy value is neither
    ['all'] nor ['kanji']. *)
Definition mixed_policy {lib : KanjiLib} (self : Profile) : Prop :=
  diagrammed_characters self <> PStr (lit "all") /\
  diagrammed_characters self <> PStr (lit "kanji").

(** The event fired for the source field of the profile, or for no field
    in particular. *)
Definition exited_source_field {lib : KanjiLib} (self : Profile)
    (current_field_index : option Z) (n : note) : Prop :=
  match current_field_index with
  | None => True
  | Some i =>
      exists f, py_index (flds (note_model n)) i = Some f /\
                fld_name f = src_field self
  end.

(** The calls one character gives rise to: none when KanjiVG rejects it,
    a rendering when it has a file name, and a write of the encoded
    diagram when the rendering succeeds. *)
Definition calls_for {lib : KanjiLib} (self : Profile) (c : pychar)
  : list call :=
  match ascii_filename c with
  | Raise _ => []
  | Return filename =>
      match get_colored_svg (kanji_colorizer self) c with
      | Raise _ => [Render c]
      | Return svg =>
          match utf8 svg with
          | None => [Render c]
          | Some data => [Render c; WriteData filename data]
          end
      end
  end.

Definition is_flush (c : call) : Prop :=
  match c with Flush _ => True | _ => False end.

(** The keys a configuration record is read at. *)
Definition known_keys : list pystr :=
  [lit "mode"; lit "group-mode"; lit "saturation"; lit "value";
   lit "image-size"; lit "model"; lit "src-field"; lit "dst-field";
   lit "overwrite-dest"; lit "diagrammed-characters"].

(** Text of the ASCII range. *)
Definition is_ascii (s : pystr) : Prop := Forall (fun c => c < 128) s.

(** ** A stand-in for the interfaces

    Small, total implementations of the three interfaces, on which the
    definitions above can be run: [lower] for ASCII text, a KanjiVG that
    knows the characters of the kanji range only, and a collection that
    stores every file under the name asked for. *)

Module Demo.

Definition str_of (v : pyval) : pystr :=
  match v with
  | PNone => lit "None"
  | PBool true => lit "True"
  | PBool false => lit "False"
  | PInt z => lit (NilZero.string_of_int (Z.to_int z))
  | PStr s => s
  | _ => lit "?"
  end.

Definition pystr_impl : PyStr :=
  {| py_str := str_of;
     py_lower := List.map ascii_lower;
     py_lower_ascii := fun s _ => eq_refl |}.

Definition lib : KanjiLib :=
  {| colorizer := pystr;
     KanjiColorizer := fun argstring => Return argstring;
     get_colored_svg := fun _ c =>
       Return (lit "<svg>" ++ [c] ++ lit "</svg>");
     ascii_filename := fun c =>
       if (19968 <=? c) && (c <=? 40879)
       then Return ([c] ++ lit ".svg")
       else if c =? 0 then Raise (OtherError (lit "ValueError"))
       else Raise InvalidCharacterError |}.

Definition host : AnkiHost :=
  {| collection := list (pystr * bytes);
     media_strip := fun s => s;
     media_writeData := fun filename data col =>
       (Return filename, col ++ [(filename, data)]);
     flush := fun _ col => (Return tt, col) |}.

(** A configuration record with every key, and three smaller ones. *)
Definition rendering : gmap pystr pyval :=
  <[lit "mode" := PStr (lit "spectrum")]>
  (<[lit "group-mode" := PBool false]>
  (<[lit "saturation" := PInt 1]>
  (<[lit "value" := PInt 1]>
  (<[lit "image-size" := PInt 327]> ∅)))).

Definition config (policy : pyval) : gmap pystr pyval :=
  <[lit "diagrammed-characters" := policy]> rendering.

Definition config_full : gmap pystr pyval :=
  <[lit "model" := PStr (lit "Japanese")]>
  (<[lit "src-field" := PStr (lit "Expression")]>
  (<[lit "dst-field" := PStr (lit "Strokes")]>
  (<[lit "overwrite-dest" := PBool false]> (config (PStr (lit "all")))))).

Definition config_mistyped : gmap pystr pyval :=
  <[lit "model" := PInt 3]>
  (<[lit "src-field" := PNone]>
  (<[lit "overwrite-dest" := PStr (lit "no")]> (config PNone))).

(** The profile of a configuration that names a policy and nothing else. *)
Definition profile (policy : pyval) (overwrite : bool)
  : @Profile lib :=
  @Build_Profile lib (lit "--mode spectrum") (lit "japanese")
    (lit "Kanji") (lit "Diagram") overwrite policy.

(** The text "a" + U+65E5 + "b" + U+672C and two of its parts. *)
Definition mixed_text : pystr := [97; 26085; 98; 26412].
Definition kana_text : pystr := [12354; 12356].

Definition japanese_model : model :=
  {| name := lit "Japanese (Core 2000)";
     flds := [ {| fld_name := lit "Kanji" |};
               {| fld_name := lit "Reading" |};
               {| fld_name := lit "Diagram" |} ] |}.

Definition a_note (nid : Z) (kanji diagram : pystr) : note :=
  {| note_id := nid;
     note_model := japanese_model;
     note_fields :=
       <[lit "Kanji" := kanji]>
       (<[lit "Reading" := []]>
       (<[lit "Diagram" := diagram]> ∅)) |}.

Definition start (n : note) : @state host :=
  @Build_state host n [] [].

End Demo.

(** What [addKanji] does once both fields are read and the loop is done. *)
Definition after_loop {lib : KanjiLib} {host : AnkiHost} (self : Profile)
    (flag : bool) (n : note) (oldDst : pystr) (r : outcome pystr * state)
  : outcome bool * state :=
  match r with
  | (Raise e, st1) => (Raise e, st1)
  | (Return dst, st1) =>
      if negb (bool_decide (oldDst = [])) && negb (overwrite_dest self)
      then (Return flag, st1)
      else if negb (bool_decide (dst = oldDst)) &&
              negb (bool_decide (dst = []))
      then
        let n' := note_with n (dst_field self) dst in
        if negb (note_id n =? 0)%Z then
          match flush n' (st_col st1) with
          | (Return _, col') =>
              (Return true,
               {| st_note := n'; st_col := col';
                  st_calls := st_calls st1 ++ [Flush n'] |})
          | (Raise e, col') =>
              (Raise e,
               {| st_note := n'; st_col := col';
                  st_calls := st_calls st1 ++ [Flush n'] |})
          end
        else
          (Return true,
           {| st_note := n'; st_col := st_col st1;
              st_calls := st_calls st1 |})
      else (Return flag, st1)
  end.

(** The five ways through [addKanji]. *)
Inductive addKanji_path {lib : KanjiLib} {host : AnkiHost}
    (self : Profile) (flag : bool) (idx : option Z)
    (st : state) : outcome bool * state -> Prop :=
  | path_bad_index i :
      idx = Some i ->
      py_index (flds (note_model (st_note st))) i = None ->
      addKanji_path self flag idx st (Raise IndexError, st)
  | path_unrelated i f :
      idx = Some i ->
      py_index (flds (note_model (st_note st))) i = Some f ->
      fld_name f <> src_field self ->
      addKanji_path self flag idx st (Return flag, st)
  | path_no_source :
      exited_source_field self idx (st_note st) ->
      note_fields (st_note st) !! src_field self = None ->
      addKanji_path self flag idx st (Raise (KeyError (src_field self)), st)
  | path_no_destination raw :
      exited_source_field self idx (st_note st) ->
      note_fields (st_note st) !! src_field self = Some raw ->
      note_fields (st_note st) !! dst_field self = None ->
      addKanji_path self flag idx st (Raise (KeyError (dst_field self)), st)
  | path_loop raw oldDst :
      exited_source_field self idx (st_note st) ->
      note_fields (st_note st) !! src_field self = Some raw ->
      note_fields (st_note st) !! dst_field self = Some oldDst ->
      addKanji_path self flag idx st
        (after_loop self flag (st_note st) oldDst
           (colorize_loop self
              (characters_to_colorize self (media_strip raw)) [] st)).


(** The number of times [get_colored_svg] was called for [c]. *)
Definition renderings_of (c : pychar) (calls : list call) : nat :=
  length (List.filter
            (fun x => match x with Render c' => c =? c' | _ => false end)
            calls).

(** Whether [addKanji] stores the markup [dst] over the value [oldDst]. *)
Definition stores {lib : KanjiLib} (self : Profile) (oldDst dst : pystr)
  : bool :=
  negb (negb (bool_decide (oldDst = [])) && negb (overwrite_dest self)) &&
  (negb (bool_decide (dst = oldDst)) && negb (bool_decide (dst = []))).

(** A note that has a value for every field of its model. *)
Definition well_formed (n : note) : Prop :=
  forall k, k ∈ fieldNames (note_model n) -> is_Some (note_fields n !! k).

(** [p] is the right profile for the model [m]. *)
Definition matches {py : PyStr} {lib : KanjiLib} (p : Profile) (m : model)
  : bool :=
  str_contains (model_name_substr p) (py_lower (name m)) &&
  bool_decide (src_field p ∈ fieldNames m) &&
  bool_decide (dst_field p ∈ fieldNames m).

(** ** The two menu commands *)

(** The rest of the host: the two dialogs and the queries of the
    collection.  Each is a call into the host, which may change the host's
    state or fail. *)
Class AnkiMenu {host : AnkiHost} := {
  askUser : pystr -> collection -> outcome bool * collection;
  showInfo : pystr -> collection -> outcome unit * collection;
  models_all : collection -> outcome (list model) * collection;
  models_nids : model -> collection -> outcome (list Z) * collection;
  models_ids : collection -> outcome (list Z) * collection;
  models_get : Z -> collection -> outcome (option model) * collection;
  getNote : Z -> collection -> outcome note * collection;
  findNotes : pystr -> collection -> outcome (list Z) * collection
}.

Section Menu.
Context {py : PyStr} {lib : KanjiLib} {host : AnkiHost} {menu : AnkiMenu}.

(** [[x for x in l if test(x)]] *)
Fixpoint comprehension_if {A} (test : A -> M bool) (l : list A)
  : M (list A) :=
  match l with
  | [] => ret []
  | x :: l' =>
      (keep <- test x ;;
       xs <- comprehension_if test l' ;;
       ret (if keep then x :: xs else xs))%py
  end.

(** [for x in l: body(x)] *)
Fixpoint for_each {A} (body : A -> M unit) (l : list A) : M unit :=
  match l with
  | [] => ret tt
  | x :: l' => (body x ;; for_each body l')%py
  end.

(** [sep.join(l)] *)
Fixpoint py_join (sep : pystr) (l : list pystr) : pystr :=
  match l with
  | [] => []
  | [x] => x
  | x :: l' => x ++ sep ++ py_join sep l'
  end.

(** [p.addKanji(mw.col.getNote(nid))]: the note loaded becomes the note at
    hand, the flag is [False] and there is no field index. *)
Definition addKanji_of_note (p : Profile) (nid : Z) : M unit :=
  (n <- on_collection (getNote nid) ;;
   set_note n ;;
   _ <- addKanji p false None ;;
   ret tt)%py.

(** [regenerate_all()] over the loaded profiles *)
Definition regenerate_all (loaded : list Profile) : M unit :=
  (confirmed <-
     on_collection
       (askUser (lit "Do you want to regenerate all kanji diagrams? " ++
                 lit "This may take some time and will overwrite the " ++
                 lit "destination Diagram fields.")) ;;
   if negb confirmed then ret tt else
   for_each
     (fun p =>
        all <- on_collection models_all ;;
        models <- comprehension_if (model_is_correct_type p) all ;;
        for_each
          (fun model =>
             nids <- on_collection (models_nids model) ;;
             for_each (addKanji_of_note p) nids)
          models)
     loaded ;;
   on_collection
     (showInfo (lit "Done regenerating colorized kanji diagrams!")))%py.

(** The search of [generate_for_new]:
    ['({}) {}:_* {}:'.format(' or '.join('mid:'+str(mid) ...), src, dst)] *)
Definition search_str (p : Profile) (model_ids : list Z) : pystr :=
  lit "(" ++
  py_join (lit " or ")
    (List.map (fun mid => lit "mid:" ++ py_str (PInt mid)) model_ids) ++
  lit ") " ++ src_field p ++ lit ":_* " ++ dst_field p ++ lit ":".

(** The loop of [generate_for_new] from the profiles [ps] on.  The
    [return] inside the loop ends the command, so the closing message is
    what the loop does when it runs out of profiles. *)
Fixpoint generate_for_new_from (ps : list Profile) : M unit :=
  match ps with
  | [] =>
      on_collection
        (showInfo (lit "Done generating colorized kanji diagrams!"))
  | p :: rest =>
      (ids <- on_collection models_ids ;;
       model_ids <-
         comprehension_if
           (fun mid =>
              m <- on_collection (models_get mid) ;;
              match m with
              | Some m => model_is_correct_type p m
              | None => raise TypeError
              end)
           ids ;;
       match model_ids with
       | [] =>
           on_collection
             (showInfo
                (lit "Can not find any relevant models. Make sure model, src-field,-and dst-field are set correctly in your config."))
       | _ :: _ =>
           note_ids <- on_collection (findNotes (search_str p model_ids)) ;;
           for_each (addKanji_of_note p) note_ids ;;
           generate_for_new_from rest
       end)%py
  end.

(** [generate_for_new()] over the loaded profiles *)
Definition generate_for_new (loaded : list Profile) : M unit :=
  (confirmed <-
     on_collection
       (askUser (lit "This option will generate diagrams for notes with " ++
                 lit "an empty destination field only. " ++
                 lit "Proceed?")) ;;
   if negb confirmed then ret tt else generate_for_new_from loaded)%py.

End Menu.

(** A host for the commands over the demonstration collection: it knows
    one model and the notes 1 and 2, and the user answers as [answer]. *)
Definition demo_menu (answer : bool) : @AnkiMenu Demo.host :=
  @Build_AnkiMenu Demo.host
    (fun _ col => (Return answer, col))
    (fun _ col => (Return tt, col))
    (fun col => (Return [Demo.japanese_model], col))
    (fun _ col => (Return [1%Z; 2%Z], col))
    (fun col => (Return [10%Z], col))
    (fun mid col =>
       (Return (if (mid =? 10)%Z then Some Demo.japanese_model else None),
        col))
    (fun nid col => (Return (Demo.a_note nid Demo.mixed_text []), col))
    (fun _ col => (Return [1%Z; 2%Z], col)).

(** The questions the two commands ask before they start. *)
Definition regenerate_all_question : pystr :=
  lit "Do you want to regenerate all kanji diagrams? " ++
  lit "This may take some time and will overwrite the " ++
  lit "destination Diagram fields.".

Definition generate_for_new_question : pystr :=
  lit "This option will generate diagrams for notes with " ++
  lit "an empty destination field only. " ++
  lit "Proceed?".

(** The same host with a user who declines the question [declined] and
    accepts every other one. *)
Definition demo_menu_declining (declined : pystr) : @AnkiMenu Demo.host :=
  @Build_AnkiMenu Demo.host
    (fun question col =>
       (Return (negb (bool_decide (question = declined))), col))
    (fun _ col => (Return tt, col))
    (fun col => (Return [Demo.japanese_model], col))
    (fun _ col => (Return [1%Z; 2%Z], col))
    (fun col => (Return [10%Z], col))
    (fun mid col =>
       (Return (if (mid =? 10)%Z then Some Demo.japanese_model else None),
        col))
    (fun nid col => (Return (Demo.a_note nid Demo.mixed_text []), col))
    (fun _ col => (Return [1%Z; 2%Z], col)).

(** * Properties *)

(** ** Character selection *)

Section Selection.
Context {py : PyStr} {lib : KanjiLib}.

Lemma is_kanji_spec (c : pychar) : is_kanji c = true <-> in_kanji_range c.
Proof.
  unfold is_kanji, in_kanji_range.
  rewrite andb_true_iff, !N.leb_le. tauto.
Qed.

Lemma is_kanji_decide (c : pychar) :
  is_kanji c = bool_decide (in_kanji_range c).
Proof.
  destruct (is_kanji c) eqn:E; symmetry.
  - apply bool_decide_eq_true, is_kanji_spec, E.
  - apply bool_decide_eq_false. rewrite <- is_kanji_spec. congruence.
Qed.

Lemma filter_kanji_subsequence (s : pystr) :
  kanji_subsequence s (List.filter is_kanji s).
Proof.
  induction s as [|c s IH]; simpl.
  - constructor.
  - destruct (is_kanji c) eqn:E.
    + apply ks_keep; [apply is_kanji_spec, E | exact IH].
    + apply ks_drop; [rewrite <- is_kanji_spec; congruence | exact IH].
Qed.

Lemma kanji_subsequence_filter (s : pystr) (r : list pychar) :
  kanji_subsequence s r -> r = List.filter is_kanji s.
Proof.
  induction 1 as [|c s r Hc _ IH|c s r Hc _ IH]; simpl.
  - reflexivity.
  - apply is_kanji_spec in Hc. rewrite Hc. congruence.
  - destruct (is_kanji c) eqn:E; [|exact IH].
    apply is_kanji_spec in E. contradiction.
Qed.

Lemma py_eq_str_true (v : pyval) (s : pystr) :
  py_eq_str v s = true <-> v = PStr s.
Proof.
  destruct v; simpl; try (split; [discriminate | discriminate]).
  rewrite bool_decide_eq_true. split; congruence.
Qed.

Lemma py_eq_str_false (v : pyval) (s : pystr) :
  py_eq_str v s = false <-> v <> PStr s.
Proof.
  rewrite <- py_eq_str_true. destruct (py_eq_str v s); split; congruence.
Qed.

Lemma filter_kanji_nonempty (s : pystr) :
  (1 <=? length (List.filter is_kanji s))%nat = true <->
  Exists in_kanji_range s.
Proof.
  rewrite Nat.leb_le. induction s as [|c s IH]; simpl.
  - rewrite Exists_nil. lia.
  - rewrite Exists_cons. destruct (is_kanji c) eqn:E; simpl.
    + apply is_kanji_spec in E. split; [tauto | lia].
    + rewrite IH. split; [tauto | intros [Hc|Hs]; [|exact Hs]].
      apply is_kanji_spec in Hc. congruence.
Qed.

Lemma filter_kanji_none (s : pystr) :
  Forall (fun c => ~ in_kanji_range c) s -> List.filter is_kanji s = [].
Proof.
  induction 1 as [|c s Hc _ IH]; simpl; [reflexivity|].
  destruct (is_kanji c) eqn:E; [|exact IH].
  apply is_kanji_spec in E. contradiction.
Qed.

Lemma mixed_policy_selection (self : Profile) (s : pystr) :
  mixed_policy self ->
  characters_to_colorize self s =
    if (1 <=? length (List.filter is_kanji s))%nat
    then List.filter is_kanji s else s.
Proof.
  intros [Hall Hkanji]. unfold characters_to_colorize.
  apply py_eq_str_false in Hall, Hkanji. rewrite Hall, Hkanji. reflexivity.
Qed.

(** C1: under the policy ['kanji'] the selected characters are exactly the
    characters of the input in the range [19968, 40879], in their original
    order: they form the kanji subsequence of the input, and nothing else
    does. *)
Theorem kanji_policy_selects_kanji_subsequence
    (self : Profile) (s : pystr) :
  diagrammed_characters self = PStr (lit "kanji") ->
  kanji_subsequence s (characters_to_colorize self s) /\
  (forall r, kanji_subsequence s r -> r = characters_to_colorize self s) /\
  characters_to_colorize self s `sublist_of` s /\
  (forall c, c ∈ characters_to_colorize self s <->
             c ∈ s /\ 19968 <= ord c <= 40879).
Proof.
  intros Hpol.
  assert (characters_to_colorize self s = List.filter is_kanji s) as ->.
  { unfold characters_to_colorize. rewrite Hpol. reflexivity. }
  split; [apply filter_kanji_subsequence|].
  split; [apply kanji_subsequence_filter|].
  split.
  - induction s as [|c s IH]; simpl; [constructor|].
    destruct (is_kanji c); [apply sublist_skip | apply sublist_cons];
      exact IH.
  - intros c. rewrite !list_elem_of_In, filter_In, is_kanji_spec.
    reflexivity.
Qed.

Lemma mixed_selection_filter (s : pystr) :
  mixed_selection s =
    if (1 <=? length (List.filter is_kanji s))%nat
    then List.filter is_kanji s else s.
Proof.
  unfold mixed_selection.
  rewrite (filter_ext _ _ (fun c => eq_sym (is_kanji_decide c))).
  destruct (1 <=? length (List.filter is_kanji s))%nat eqn:E.
  - apply filter_kanji_nonempty in E. rewrite bool_decide_eq_true_2; done.
  - rewrite bool_decide_eq_false_2; [done|].
    rewrite <- filter_kanji_nonempty. congruence.
Qed.

(** C2: under the mixed (default) policy the selected characters are the
    kanji subsequence of the input when the input holds a kanji, and the
    whole input, unchanged and in order, when it holds none; on an input
    with no kanji the policy ['kanji'] selects nothing. *)
Theorem mixed_policy_kanji_or_everything (self : Profile) (s : pystr) :
  mixed_policy self ->
  (Exists in_kanji_range s ->
     kanji_subsequence s (characters_to_colorize self s)) /\
  (Forall (fun c => ~ in_kanji_range c) s ->
     characters_to_colorize self s = py_list s) /\
  (forall self' : Profile,
     diagrammed_characters self' = PStr (lit "kanji") ->
     Forall (fun c => ~ in_kanji_range c) s ->
     characters_to_colorize self' s = []).
Proof.
  intros Hmixed. rewrite (mixed_policy_selection self s Hmixed).
  repeat split.
  - intros Hex. apply filter_kanji_nonempty in Hex. rewrite Hex.
    apply filter_kanji_subsequence.
  - intros Hno. rewrite (filter_kanji_none s Hno). reflexivity.
  - intros self' Hpol Hno. unfold characters_to_colorize.
    rewrite Hpol. simpl. apply filter_kanji_none, Hno.
Qed.

Lemma Profile_init_policy (data : gmap pystr pyval) (self : Profile) :
  Profile_init data = Return self ->
  data !! lit "diagrammed-characters" = Some (diagrammed_characters self).
Proof.
  unfold Profile_init, dict_get.
  destruct (make_kanji_colorizer data) as [kc|e]; simpl; [|discriminate].
  destruct (data !! lit "diagrammed-characters") as [v|]; simpl;
    [|discriminate].
  intros [= <-]. reflexivity.
Qed.

Lemma Profile_init_succeeds (data : gmap pystr pyval) (kc : colorizer)
    (v : pyval) :
  make_kanji_colorizer data = Return kc ->
  data !! lit "diagrammed-characters" = Some v ->
  exists self, Profile_init data = Return self /\
               kanji_colorizer self = kc /\
               diagrammed_characters self = v.
Proof.
  intros Hkc Hv. unfold Profile_init, dict_get. rewrite Hkc, Hv. simpl.
  eexists. repeat split.
Qed.

(** C10: a policy value that is neither ['all'] nor ['kanji'], whatever
    its spelling or type, selects as the mixed policy does: the kanji of
    the input if there is one, the whole input otherwise.  Construction
    stores the configured value as it is and rejects none. *)
Theorem unrecognised_policy_is_mixed :
  (forall (self : Profile) (s : pystr),
     diagrammed_characters self <> PStr (lit "all") ->
     diagrammed_characters self <> PStr (lit "kanji") ->
     characters_to_colorize self s = mixed_selection s) /\
  (forall (data : gmap pystr pyval) (v : pyval) (kc : colorizer),
     make_kanji_colorizer data = Return kc ->
     forall self,
       Profile_init (<[lit "diagrammed-characters" := v]> data)
         = Return self ->
       diagrammed_characters self = v) /\
  (forall (data : gmap pystr pyval) (v : pyval) (kc : colorizer),
     make_kanji_colorizer data = Return kc ->
     data !! lit "diagrammed-characters" = Some v ->
     exists self, Profile_init data = Return self /\
                  diagrammed_characters self = v).
Proof.
  repeat split.
  - intros self s Hall Hkanji.
    rewrite mixed_selection_filter.
    apply mixed_policy_selection. split; assumption.
  - intros data v kc _ self Hinit.
    apply Profile_init_policy in Hinit.
    rewrite lookup_insert_eq in Hinit. congruence.
  - intros data v kc Hkc Hv.
    destruct (Profile_init_succeeds data kc v Hkc Hv) as (self & ? & _ & ?).
    eauto.
Qed.

End Selection.

(** ** Construction of a profile *)

Section Construction.
Context {py : PyStr} {lib : KanjiLib}.

Lemma dict_get_Return (d : gmap pystr pyval) (k : pystr) (v : pyval) :
  dict_get d k = Return v <-> d !! k = Some v.
Proof.
  unfold dict_get. destruct (d !! k); split; congruence.
Qed.

Lemma obind_Return {A B} (o : outcome A) (k : A -> outcome B) (b : B) :
  obind o k = Return b <-> exists a, o = Return a /\ k a = Return b.
Proof.
  destruct o as [a|e]; simpl.
  - split; [eauto | intros (a' & [= <-] & Hk); exact Hk].
  - split; [discriminate | intros (a' & [=] & _)].
Qed.

Lemma make_kanji_colorizer_requires (data : gmap pystr pyval)
    (kc : colorizer) :
  make_kanji_colorizer data = Return kc ->
  (exists mode, data !! lit "mode" = Some (PStr mode)) /\
  is_Some (data !! lit "group-mode") /\
  is_Some (data !! lit "saturation") /\
  is_Some (data !! lit "value") /\
  is_Some (data !! lit "image-size").
Proof.
  unfold make_kanji_colorizer.
  intros (mode & Hmode & H1)%obind_Return.
  apply obind_Return in H1 as (config & Hadd & H1).
  apply obind_Return in H1 as (gm & Hgm & H1).
  apply obind_Return in H1 as (sat & Hsat & H1).
  apply obind_Return in H1 as (val & Hval & H1).
  apply obind_Return in H1 as (isz & Hisz & _).
  apply dict_get_Return in Hmode, Hgm, Hsat, Hval, Hisz.
  destruct mode; try discriminate Hadd.
  rewrite Hgm, Hsat, Hval, Hisz. eauto 10.
Qed.

(** C5, as the code has it: construction succeeds exactly on the records
    whose rendering options [make_kanji_colorizer] accepts (which needs the
    keys mode, a string, group-mode, saturation, value and image-size) and
    that hold the key diagrammed-characters; then each of model, src-field,
    dst-field and overwrite-dest that is absent or of the wrong type takes
    its default, a well-typed value is kept (the model substring in lower
    case), and diagrammed-characters is stored unchecked.  Every other
    record is rejected, with the exception of the first step that fails:
    mode ([KeyError] when absent, [TypeError] when not a string), then
    group-mode, saturation, value and image-size ([KeyError] with the
    key), then [KanjiColorizer] on the option string (its own exception),
    then diagrammed-characters ([KeyError]). *)
Theorem Profile_init_defaults (data : gmap pystr pyval) :
  ((exists self, Profile_init data = Return self) <->
   (exists kc, make_kanji_colorizer data = Return kc) /\
   is_Some (data !! lit "diagrammed-characters")) /\
  (forall kc, make_kanji_colorizer data = Return kc ->
     (exists mode, data !! lit "mode" = Some (PStr mode)) /\
     is_Some (data !! lit "group-mode") /\
     is_Some (data !! lit "saturation") /\
     is_Some (data !! lit "value") /\
     is_Some (data !! lit "image-size")) /\
  (forall self, Profile_init data = Return self ->
     (forall s, data !! lit "model" = Some (PStr s) ->
        model_name_substr self = py_lower s) /\
     ((forall s, data !! lit "model" <> Some (PStr s)) ->
        model_name_substr self = lit "japanese") /\
     (forall s, data !! lit "src-field" = Some (PStr s) ->
        src_field self = s) /\
     ((forall s, data !! lit "src-field" <> Some (PStr s)) ->
        src_field self = lit "Kanji") /\
     (forall s, data !! lit "dst-field" = Some (PStr s) ->
        dst_field self = s) /\
     ((forall s, data !! lit "dst-field" <> Some (PStr s)) ->
        dst_field self = lit "Diagram") /\
     (forall b, data !! lit "overwrite-dest" = Some (PBool b) ->
        overwrite_dest self = b) /\
     ((forall b, data !! lit "overwrite-dest" <> Some (PBool b)) ->
        overwrite_dest self = true) /\
     data !! lit "diagrammed-characters"
       = Some (diagrammed_characters self)) /\
  ((exists self, Profile_init data = Return self) \/
   (exists e, Profile_init data = Raise e)) /\
  (data !! lit "mode" = None ->
   Profile_init data = Raise (KeyError (lit "mode"))) /\
  (forall v, data !! lit "mode" = Some v -> (forall s, v <> PStr s) ->
   Profile_init data = Raise TypeError) /\
  (forall mode, data !! lit "mode" = Some (PStr mode) ->
   (data !! lit "group-mode" = None ->
    Profile_init data = Raise (KeyError (lit "group-mode"))) /\
   (forall gm, data !! lit "group-mode" = Some gm ->
    (data !! lit "saturation" = None ->
     Profile_init data = Raise (KeyError (lit "saturation"))) /\
    (forall sat, data !! lit "saturation" = Some sat ->
     (data !! lit "value" = None ->
      Profile_init data = Raise (KeyError (lit "value"))) /\
     (forall val, data !! lit "value" = Some val ->
      (data !! lit "image-size" = None ->
       Profile_init data = Raise (KeyError (lit "image-size"))) /\
      (forall isz e, data !! lit "image-size" = Some isz ->
       KanjiColorizer
         ((if truthy gm
           then lit "--mode " ++ mode ++ lit " --group-mode "
           else lit "--mode " ++ mode)
          ++ lit " --saturation " ++ py_str sat
          ++ lit " --value " ++ py_str val
          ++ lit " --image-size " ++ py_str isz) = Raise e ->
       Profile_init data = Raise e))))) /\
  (forall kc, make_kanji_colorizer data = Return kc ->
   data !! lit "diagrammed-characters" = None ->
   Profile_init data = Raise (KeyError (lit "diagrammed-characters"))).
Proof.
  split; [|split; [|split; [|split; [|split; [|split; [|split]]]]]].
  - unfold Profile_init. split.
    + intros (self & (kc & Hkc & Hrest)%obind_Return). split; [eauto|].
      apply obind_Return in Hrest as (dc & Hdc%dict_get_Return & _).
      rewrite Hdc. eauto.
    + intros ((kc & Hkc) & (dc & Hdc)).
      rewrite Hkc. unfold dict_get. rewrite Hdc. simpl. eauto.
  - apply make_kanji_colorizer_requires.
  - unfold Profile_init.
    intros self (kc & Hkc & Hrest)%obind_Return.
    apply obind_Return in Hrest as (dc & Hdc%dict_get_Return & [= <-]).
    simpl. repeat split.
    + intros s ->. reflexivity.
    + intros Hno. destruct (data !! lit "model") as [[]|]; simpl; try done.
      exfalso. eapply Hno. reflexivity.
    + intros s ->. reflexivity.
    + intros Hno.
      destruct (data !! lit "src-field") as [[]|]; simpl; try done.
      exfalso. eapply Hno. reflexivity.
    + intros s ->. reflexivity.
    + intros Hno.
      destruct (data !! lit "dst-field") as [[]|]; simpl; try done.
      exfalso. eapply Hno. reflexivity.
    + intros b ->. reflexivity.
    + intros Hno.
      destruct (data !! lit "overwrite-dest") as [[]|]; simpl; try done.
      exfalso. eapply Hno. reflexivity.
    + exact Hdc.
  - destruct (Profile_init data) as [self|e]; eauto.
  - unfold Profile_init, make_kanji_colorizer, dict_get.
    intros ->. reflexivity.
  - unfold Profile_init, make_kanji_colorizer, dict_get.
    intros v -> Hv. destruct v; try reflexivity.
    exfalso. eapply Hv. reflexivity.
  - unfold Profile_init, make_kanji_colorizer, dict_get.
    intros mode ->. cbn [obind str_add].
    split; [intros ->; reflexivity|].
    intros gm ->. cbn [obind]. split; [intros ->; reflexivity|].
    intros sat ->. cbn [obind]. split; [intros ->; reflexivity|].
    intros val ->. cbn [obind]. split; [intros ->; reflexivity|].
    intros isz e -> Hkc. cbn [obind].
    rewrite <- !app_assoc. rewrite Hkc. reflexivity.
  - unfold Profile_init, dict_get. intros kc -> ->. reflexivity.
Qed.

End Construction.

(** ** Matching a model *)

Section Matching.
Context {py : PyStr} {lib : KanjiLib} {host : AnkiHost}.

Lemma starts_with_spec (sub s : pystr) :
  starts_with sub s = true <-> exists post, s = sub ++ post.
Proof.
  revert s. induction sub as [|a sub IH]; intros s; simpl.
  - split; [eauto | reflexivity].
  - destruct s as [|b s].
    + split; [discriminate | intros (post & [=])].
    + rewrite andb_true_iff, bool_decide_eq_true, IH. split.
      * intros (-> & post & ->). eauto.
      * intros (post & [= -> ->]). eauto.
Qed.

Lemma str_contains_spec (sub s : pystr) :
  str_contains sub s = true <-> exists pre post, s = pre ++ sub ++ post.
Proof.
  induction s as [|b s IH]; simpl.
  - rewrite orb_false_r, starts_with_spec. split.
    + intros (post & ->). exists [], post. reflexivity.
    + intros (pre & post & Heq). symmetry in Heq.
      apply app_eq_nil in Heq as (-> & Heq). eauto.
  - rewrite orb_true_iff, starts_with_spec, IH. split.
    + intros [(post & ->) | (pre & post & ->)].
      * exists [], post. reflexivity.
      * exists (b :: pre), post. reflexivity.
    + intros ([|b' pre] & post & Heq); simpl in Heq.
      * left. eauto.
      * right. injection Heq as -> ->. eauto.
Qed.

Lemma lower_japanese_core :
  py_lower (lit "Japanese (Core 2000)") = lit "japanese (core 2000)".
Proof.
  rewrite py_lower_ascii; [reflexivity|].
  apply Forall_forall. intros c Hc.
  apply list_elem_of_In in Hc. simpl in Hc.
  repeat (destruct Hc as [<-|Hc]; [reflexivity|]). destruct Hc.
Qed.

(** C6: [model_is_correct_type] answers true exactly when the lower-cased
    name of the model contains the profile's substring and the model's
    field names hold both the source and the destination field; it neither
    fails nor changes the state.  A model named "Japanese (Core 2000)"
    matches the profile ("japanese", "Kanji", "Diagram") exactly when both
    "Kanji" and "Diagram" are among its fields. *)
Theorem model_is_correct_type_iff (self : Profile) (m : model) (st : state) :
  (exists b : bool,
     model_is_correct_type self m st = (Return b, st) /\
     (b = true <->
      (exists pre post,
         py_lower (name m) = pre ++ model_name_substr self ++ post) /\
      src_field self ∈ fieldNames m /\
      dst_field self ∈ fieldNames m)) /\
  (model_name_substr self = lit "japanese" ->
   src_field self = lit "Kanji" ->
   dst_field self = lit "Diagram" ->
   name m = lit "Japanese (Core 2000)" ->
   (lit "Kanji" ∈ fieldNames m /\ lit "Diagram" ∈ fieldNames m ->
      model_is_correct_type self m st = (Return true, st)) /\
   (lit "Kanji" ∉ fieldNames m \/ lit "Diagram" ∉ fieldNames m ->
      model_is_correct_type self m st = (Return false, st))).
Proof.
  split.
  - eexists. split; [reflexivity|].
    rewrite !andb_true_iff, !bool_decide_eq_true, str_contains_spec.
    tauto.
  - intros Hsub Hsrc Hdst Hname.
    unfold model_is_correct_type, ret.
    rewrite Hsub, Hsrc, Hdst, Hname, lower_japanese_core.
    change (str_contains (lit "japanese") (lit "japanese (core 2000)"))
      with true.
    split.
    + intros [Hk Hd]. rewrite !bool_decide_eq_true_2 by assumption.
      reflexivity.
    + intros [Hk | Hd].
      * rewrite (bool_decide_eq_false_2 _ Hk). reflexivity.
      * rewrite (bool_decide_eq_false_2 _ Hd), andb_false_r. reflexivity.
Qed.

End Matching.

(** ** Adding the diagram to a note *)

Section Diagram.
Context {lib : KanjiLib} {host : AnkiHost}.

Ltac run :=
  unfold bind, ret, raise, lift, get_note, set_note, record, on_collection,
    encode_utf_8 in *; simpl in *.

Lemma bind_Raise {A B} (c : M A) (k : A -> M B) (st st' : state) (e : exn) :
  c st = (Raise e, st') -> bind c k st = (Raise e, st').
Proof. intros Hc. unfold bind. rewrite Hc. reflexivity. Qed.

Lemma bind_Return {A B} (c : M A) (k : A -> M B) (st st' : state) (a : A) :
  c st = (Return a, st') -> bind c k st = k a st'.
Proof. intros Hc. unfold bind. rewrite Hc. reflexivity. Qed.

(** One character: the note is left alone and the calls are those of
    [calls_for], whatever the outcome. *)
Lemma colorize_character_frame (self : Profile) (c : pychar) (dst : pystr)
    (st : state) :
  st_note (colorize_character self c dst st).2 = st_note st /\
  st_calls (colorize_character self c dst st).2
    = st_calls st ++ calls_for self c.
Proof.
  unfold colorize_character, calls_for.
  destruct (ascii_filename c) as [filename|e].
  - run. destruct (get_colored_svg (kanji_colorizer self) c) as [svg|e];
      simpl; [|done].
    destruct (utf8 svg) as [data|]; simpl; [|done].
    destruct (media_writeData filename data (st_col st)) as [[fname|e] col'];
      simpl; rewrite <- app_assoc; done.
  - destruct e; run; rewrite app_nil_r; done.
Qed.

Lemma colorize_character_Return (self : Profile) (c : pychar)
    (dst dst' : pystr) (st st' : state) :
  colorize_character self c dst st = (Return dst', st') ->
  (ascii_filename c = Raise InvalidCharacterError /\ dst' = dst /\ st' = st)
  \/
  (exists filename svg data anki_fname,
     ascii_filename c = Return filename /\
     get_colored_svg (kanji_colorizer self) c = Return svg /\
     utf8 svg = Some data /\
     (media_writeData filename data (st_col st)).1 = Return anki_fname /\
     dst' = dst ++ img_tag anki_fname).
Proof.
  unfold colorize_character.
  destruct (ascii_filename c) as [filename|e] eqn:Hf.
  - run. destruct (get_colored_svg (kanji_colorizer self) c) as [svg|e];
      simpl; [|discriminate].
    destruct (utf8 svg) as [data|] eqn:Hu; simpl; [|discriminate].
    destruct (media_writeData filename data (st_col st))
      as [[fname|e] col'] eqn:Hw; simpl; [|discriminate].
    intros [= <- <-]. right. exists filename, svg, data, fname.
    rewrite Hw. done.
  - destruct e; run; try discriminate. intros [= <- <-]. left. done.
Qed.

Lemma colorize_loop_app (self : Profile) (pre rest : list pychar)
    (dst : pystr) (st : state) :
  colorize_loop self (pre ++ rest) dst st
  = bind (colorize_loop self pre dst) (colorize_loop self rest) st.
Proof.
  revert dst st. induction pre as [|c pre IH]; intros dst st; simpl.
  - reflexivity.
  - unfold bind.
    destruct (colorize_character self c dst st) as [[d|e] st1];
      [|reflexivity].
    rewrite IH. reflexivity.
Qed.

(** The loop: the note is left alone, and no call is a flush. *)
Lemma colorize_loop_frame (self : Profile) (characters : list pychar)
    (dst : pystr) (st : state) :
  st_note (colorize_loop self characters dst st).2 = st_note st /\
  exists calls,
    st_calls (colorize_loop self characters dst st).2 = st_calls st ++ calls
    /\ Forall (fun c => ~ is_flush c) calls.
Proof.
  revert dst st. induction characters as [|c cs IH]; intros dst st; simpl.
  - split; [reflexivity|]. exists []. rewrite app_nil_r. done.
  - unfold bind.
    pose proof (colorize_character_frame self c dst st) as [Hn Hc].
    destruct (colorize_character self c dst st) as [[d|e] st1];
      simpl in *.
    + destruct (IH d st1) as (Hn' & calls & Hc' & Hnf).
      split; [congruence|].
      exists (calls_for self c ++ calls).
      rewrite Hc', Hc, <- app_assoc. split; [done|].
      apply Forall_app. split; [|done].
      unfold calls_for.
      repeat case_match; repeat constructor; simpl; tauto.
    + split; [done|]. exists (calls_for self c). split; [done|].
      unfold calls_for.
      repeat case_match; repeat constructor; simpl; tauto.
Qed.

(** When the loop runs to its end the calls are those of every character,
    and each character was either rejected or rendered and written. *)
Lemma colorize_loop_Return (self : Profile) (characters : list pychar)
    (dst dst' : pystr) (st st' : state) :
  colorize_loop self characters dst st = (Return dst', st') ->
  st_calls st' = st_calls st ++ flat_map (calls_for self) characters /\
  Forall (fun c =>
            ascii_filename c = Raise InvalidCharacterError \/
            exists filename svg data,
              ascii_filename c = Return filename /\
              get_colored_svg (kanji_colorizer self) c = Return svg /\
              utf8 svg = Some data /\
              calls_for self c = [Render c; WriteData filename data])
         characters.
Proof.
  revert dst st. induction characters as [|c cs IH]; intros dst st; simpl.
  - intros [= <- <-]. rewrite app_nil_r. done.
  - unfold bind.
    pose proof (colorize_character_frame self c dst st) as [_ Hc].
    destruct (colorize_character self c dst st) as [[d|e] st1] eqn:Hone;
      simpl in *; [|discriminate].
    intros Hrest. destruct (IH _ _ Hrest) as [Hcalls Hall].
    split; [rewrite Hcalls, Hc, <- app_assoc; done|].
    constructor; [|exact Hall].
    apply colorize_character_Return in Hone
      as [(Hrej & _) | (f & svg & data & fname & Hf & Hs & Hu & _)].
    + left. exact Hrej.
    + right. exists f, svg, data. unfold calls_for.
      rewrite Hf, Hs, Hu. done.
Qed.

(** The four ways through [addKanji]. *)
Lemma addKanji_unrelated (self : Profile) (flag : bool) (i : Z) (f : field)
    (st : state) :
  py_index (flds (note_model (st_note st))) i = Some f ->
  fld_name f <> src_field self ->
  addKanji self flag (Some i) st = (Return flag, st).
Proof.
  intros Hi Hne. unfold addKanji. run. rewrite Hi. simpl.
  rewrite bool_decide_eq_false_2 by exact Hne. reflexivity.
Qed.

Lemma addKanji_bad_index (self : Profile) (flag : bool) (i : Z)
    (st : state) :
  py_index (flds (note_model (st_note st))) i = None ->
  addKanji self flag (Some i) st = (Raise IndexError, st).
Proof.
  intros Hi. unfold addKanji. run. rewrite Hi. reflexivity.
Qed.

Lemma addKanji_no_source (self : Profile) (flag : bool) (idx : option Z)
    (st : state) :
  exited_source_field self idx (st_note st) ->
  note_fields (st_note st) !! src_field self = None ->
  addKanji self flag idx st = (Raise (KeyError (src_field self)), st).
Proof.
  intros Hrel Hsrc. unfold addKanji, note_getitem. run.
  destruct idx as [i|]; simpl in *.
  - destruct Hrel as (f & -> & Hf). simpl.
    rewrite bool_decide_eq_true_2 by exact Hf. simpl.
    rewrite Hsrc. reflexivity.
  - rewrite Hsrc. reflexivity.
Qed.

Lemma addKanji_after_loop (self : Profile) (flag : bool) (idx : option Z)
    (st : state) (raw oldDst : pystr) :
  exited_source_field self idx (st_note st) ->
  note_fields (st_note st) !! src_field self = Some raw ->
  note_fields (st_note st) !! dst_field self = Some oldDst ->
  addKanji self flag idx st =
    match colorize_loop self
            (characters_to_colorize self (media_strip raw)) [] st with
    | (Raise e, st1) => (Raise e, st1)
    | (Return dst, st1) =>
        if negb (bool_decide (oldDst = [])) && negb (overwrite_dest self)
        then (Return flag, st1)
        else if negb (bool_decide (dst = oldDst)) &&
                negb (bool_decide (dst = []))
        then
          let n' := note_with (st_note st) (dst_field self) dst in
          if negb (note_id (st_note st) =? 0)%Z then
            match flush n' (st_col st1) with
            | (Return _, col') =>
                (Return true,
                 {| st_note := n'; st_col := col';
                    st_calls := st_calls st1 ++ [Flush n'] |})
            | (Raise e, col') =>
                (Raise e,
                 {| st_note := n'; st_col := col';
                    st_calls := st_calls st1 ++ [Flush n'] |})
            end
          else
            (Return true,
             {| st_note := n'; st_col := st_col st1;
                st_calls := st_calls st1 |})
        else (Return flag, st1)
    end.
Proof.
  intros Hrel Hsrc Hdst.
  pose proof (colorize_loop_frame self
                (characters_to_colorize self (media_strip raw)) [] st)
    as [Hnote _].
  assert (addKanji self flag idx st = addKanji self flag None st) as ->.
  { destruct idx as [i|]; [|reflexivity]. simpl in Hrel.
    destruct Hrel as (f & Hi & Hf). unfold addKanji. run.
    rewrite Hi. simpl. rewrite bool_decide_eq_true_2 by exact Hf.
    reflexivity. }
  unfold addKanji, note_getitem, note_setitem, note_flush. run.
  rewrite Hsrc, Hdst. simpl.
  destruct (colorize_loop self
              (characters_to_colorize self (media_strip raw)) [] st)
    as [[dst|e] st1]; simpl in *; [|reflexivity].
  destruct (negb (bool_decide (oldDst = [])) && negb (overwrite_dest self));
    [reflexivity|].
  destruct (negb (bool_decide (dst = oldDst)) &&
            negb (bool_decide (dst = []))); [|reflexivity].
  rewrite Hnote, Hdst. simpl.
  destruct (negb (note_id (st_note st) =? 0)%Z); simpl; [|reflexivity].
  destruct (flush _ (st_col st1)) as [[[]|e] col']; reflexivity.
Qed.

Lemma addKanji_guarded (self : Profile) (flag : bool) (idx : option Z)
    (st : state) (raw oldDst : pystr) :
  overwrite_dest self = false ->
  oldDst <> [] ->
  exited_source_field self idx (st_note st) ->
  note_fields (st_note st) !! src_field self = Some raw ->
  note_fields (st_note st) !! dst_field self = Some oldDst ->
  addKanji self flag idx st =
    match colorize_loop self
            (characters_to_colorize self (media_strip raw)) [] st with
    | (Raise e, st1) => (Raise e, st1)
    | (Return _, st1) => (Return flag, st1)
    end.
Proof.
  intros Hov Hold Hrel Hsrc Hdst.
  rewrite (addKanji_after_loop self flag idx st raw oldDst Hrel Hsrc Hdst).
  rewrite Hov, (bool_decide_eq_false_2 _ Hold). reflexivity.
Qed.

(** C8: when the event fired for a field whose name in the note's model is
    not the source field, [addKanji] returns the incoming flag and leaves
    the whole state as it was: the note, the collection and the list of
    rendering, writing and flushing calls. *)
Theorem addKanji_unrelated_field (self : Profile) (flag : bool) (i : Z)
    (f : field) (st : state) :
  py_index (flds (note_model (st_note st))) i = Some f ->
  fld_name f <> src_field self ->
  addKanji self flag (Some i) st = (Return flag, st) /\
  st_note (addKanji self flag (Some i) st).2 = st_note st /\
  st_col (addKanji self flag (Some i) st).2 = st_col st /\
  st_calls (addKanji self flag (Some i) st).2 = st_calls st.
Proof.
  intros Hi Hne. rewrite (addKanji_unrelated self flag i f st Hi Hne).
  done.
Qed.

(** C3: with overwriting off and a destination field that is not empty,
    [addKanji] never changes the note and never flushes, whatever happens;
    a call that returns, returns the incoming flag; and the call does
    return, with that flag, whenever the loop computes some markup,
    whichever it is. *)
Theorem addKanji_keeps_filled_destination (self : Profile) (flag : bool)
    (idx : option Z) (st : state) (oldDst : pystr) :
  overwrite_dest self = false ->
  note_fields (st_note st) !! dst_field self = Some oldDst ->
  oldDst <> [] ->
  st_note (addKanji self flag idx st).2 = st_note st /\
  (exists calls,
     st_calls (addKanji self flag idx st).2 = st_calls st ++ calls /\
     Forall (fun c => ~ is_flush c) calls) /\
  (forall b, (addKanji self flag idx st).1 = Return b -> b = flag) /\
  (forall raw dst st1,
     exited_source_field self idx (st_note st) ->
     note_fields (st_note st) !! src_field self = Some raw ->
     colorize_loop self (characters_to_colorize self (media_strip raw))
       [] st = (Return dst, st1) ->
     addKanji self flag idx st = (Return flag, st1)).
Proof.
  intros Hov Hdst Hold.
  set (P := fun r : outcome bool * state =>
         st_note r.2 = st_note st /\
         (exists calls, st_calls r.2 = st_calls st ++ calls /\
                        Forall (fun c => ~ is_flush c) calls) /\
         (forall b, r.1 = Return b -> b = flag)).
  assert (forall e, P (Raise e, st)) as Hraise.
  { intros e. split; [done|]. split; [|discriminate].
    exists []. rewrite app_nil_r. done. }
  assert (P (Return flag, st)) as Hflag.
  { split; [done|]. split; [|simpl; congruence].
    exists []. rewrite app_nil_r. done. }
  assert (exited_source_field self idx (st_note st) ->
          P (addKanji self flag idx st)) as Hrelated.
  { intros Hrel.
    destruct (note_fields (st_note st) !! src_field self) as [raw|] eqn:Hsrc.
    - rewrite (addKanji_guarded self flag idx st raw oldDst) by assumption.
      pose proof (colorize_loop_frame self
                    (characters_to_colorize self (media_strip raw)) [] st)
        as (Hnote & calls & Hcalls & Hnf).
      destruct (colorize_loop self _ [] st) as [[dst|e] st1]; simpl in *.
      + split; [done|]. split; [eauto|]. simpl. congruence.
      + split; [done|]. split; [eauto|]. discriminate.
    - rewrite (addKanji_no_source self flag idx st Hrel Hsrc).
      apply Hraise. }
  assert (P (addKanji self flag idx st)) as (Hnote & Hcalls & Hret).
  { destruct idx as [i|]; [|apply Hrelated; exact I].
    destruct (py_index (flds (note_model (st_note st))) i) as [f|] eqn:Hi.
    - destruct (decide (fld_name f = src_field self)) as [Hf|Hf].
      + apply Hrelated. exists f. done.
      + rewrite (addKanji_unrelated self flag i f st Hi Hf). exact Hflag.
    - rewrite (addKanji_bad_index self flag i st Hi). apply Hraise. }
  split; [exact Hnote|]. split; [exact Hcalls|]. split; [exact Hret|].
  intros raw dst st1 Hrel Hsrc Hloop.
  rewrite (addKanji_guarded self flag idx st raw oldDst) by assumption.
  rewrite Hloop. reflexivity.
Qed.

Lemma colorize_loop_rejected (self : Profile) (characters : list pychar)
    (dst : pystr) (st : state) :
  Forall (fun c => ascii_filename c = Raise InvalidCharacterError)
    characters ->
  colorize_loop self characters dst st = (Return dst, st).
Proof.
  induction 1 as [|c cs Hc _ IH]; simpl; [reflexivity|].
  unfold bind, colorize_character. rewrite Hc. exact IH.
Qed.

(** C4: with overwriting on, markup that is not empty and differs from the
    destination field is written into that field; a note with an id other
    than 0 is then flushed, and the call returns [True] (for a flushed note
    once the flush has returned).  Empty markup, as when every character
    was rejected, changes nothing and returns the incoming flag. *)
Theorem addKanji_overwrites_destination (self : Profile) (flag : bool)
    (idx : option Z) (st st1 : state) (raw oldDst dst : pystr) :
  overwrite_dest self = true ->
  exited_source_field self idx (st_note st) ->
  note_fields (st_note st) !! src_field self = Some raw ->
  note_fields (st_note st) !! dst_field self = Some oldDst ->
  colorize_loop self (characters_to_colorize self (media_strip raw)) [] st
    = (Return dst, st1) ->
  (dst <> [] -> dst <> oldDst ->
     note_fields (st_note (addKanji self flag idx st).2) !! dst_field self
       = Some dst /\
     st_note (addKanji self flag idx st).2
       = note_with (st_note st) (dst_field self) dst /\
     (note_id (st_note st) = 0%Z ->
        addKanji self flag idx st
        = (Return true,
           {| st_note := note_with (st_note st) (dst_field self) dst;
              st_col := st_col st1;
              st_calls := st_calls st1 |})) /\
     (note_id (st_note st) <> 0%Z ->
        st_calls (addKanji self flag idx st).2
          = st_calls st1
            ++ [Flush (note_with (st_note st) (dst_field self) dst)] /\
        st_col (addKanji self flag idx st).2
          = (flush (note_with (st_note st) (dst_field self) dst)
               (st_col st1)).2 /\
        (addKanji self flag idx st).1
          = match (flush (note_with (st_note st) (dst_field self) dst)
                     (st_col st1)).1 with
            | Return _ => Return true
            | Raise e => Raise e
            end)) /\
  (dst = [] ->
     addKanji self flag idx st = (Return flag, st1) /\
     st_note st1 = st_note st) /\
  (Forall (fun c => ascii_filename c = Raise InvalidCharacterError)
     (characters_to_colorize self (media_strip raw)) ->
   dst = [] /\ st1 = st).
Proof.
  intros Hov Hrel Hsrc Hdst Hloop.
  pose proof (addKanji_after_loop self flag idx st raw oldDst Hrel Hsrc Hdst)
    as Hrun.
  rewrite Hloop, Hov, andb_false_r in Hrun. simpl in Hrun.
  split; [|split].
  - intros Hne Hdiff.
    rewrite (bool_decide_eq_false_2 _ Hne),
      (bool_decide_eq_false_2 _ Hdiff) in Hrun. simpl in Hrun.
    destruct (note_id (st_note st) =? 0)%Z eqn:Hid; simpl in Hrun.
    + apply Z.eqb_eq in Hid. rewrite Hrun. simpl.
      split; [apply lookup_insert_eq|]. split; [reflexivity|].
      split; [reflexivity|]. intros Hid'. contradiction.
    + apply Z.eqb_neq in Hid.
      destruct (flush (note_with (st_note st) (dst_field self) dst)
                  (st_col st1)) as [[u|e] col'] eqn:Hfl;
        rewrite Hrun; simpl;
        (split; [apply lookup_insert_eq|]); (split; [reflexivity|]);
        (split; [intros Hid'; contradiction|]); done.
  - intros ->. rewrite andb_false_r in Hrun. split; [exact Hrun|].
    pose proof (colorize_loop_frame self
                  (characters_to_colorize self (media_strip raw)) [] st)
      as [Hnote _].
    rewrite Hloop in Hnote. exact Hnote.
  - intros Hall. rewrite (colorize_loop_rejected _ _ _ _ Hall) in Hloop.
    injection Hloop as <- <-. done.
Qed.

(** C7: a character for which [KanjiVG(c).ascii_filename] raises
    [InvalidCharacterError] is skipped: the loop runs as if the character
    were not there.  Nothing else is caught: another exception from
    [ascii_filename], any exception from [get_colored_svg], from the
    encoding or from [writeData] ends the loop with that exception, a
    failed loop fails [addKanji], and so does a failed flush. *)
Theorem invalid_character_skipped_others_propagate (self : Profile) :
  (forall pre c rest dst st,
     ascii_filename c = Raise InvalidCharacterError ->
     colorize_loop self (pre ++ c :: rest) dst st
     = colorize_loop self (pre ++ rest) dst st) /\
  (forall c rest dst st e,
     ascii_filename c = Raise e -> e <> InvalidCharacterError ->
     colorize_loop self (c :: rest) dst st = (Raise e, st)) /\
  (forall c rest dst st filename e,
     ascii_filename c = Return filename ->
     get_colored_svg (kanji_colorizer self) c = Raise e ->
     (colorize_loop self (c :: rest) dst st).1 = Raise e) /\
  (forall c rest dst st filename svg,
     ascii_filename c = Return filename ->
     get_colored_svg (kanji_colorizer self) c = Return svg ->
     utf8 svg = None ->
     (colorize_loop self (c :: rest) dst st).1 = Raise UnicodeEncodeError) /\
  (forall c rest dst st filename svg data e,
     ascii_filename c = Return filename ->
     get_colored_svg (kanji_colorizer self) c = Return svg ->
     utf8 svg = Some data ->
     (media_writeData filename data (st_col st)).1 = Raise e ->
     (colorize_loop self (c :: rest) dst st).1 = Raise e) /\
  (forall pre rest dst st e st',
     colorize_loop self pre dst st = (Raise e, st') ->
     colorize_loop self (pre ++ rest) dst st = (Raise e, st')) /\
  (forall flag idx st raw oldDst e st1,
     exited_source_field self idx (st_note st) ->
     note_fields (st_note st) !! src_field self = Some raw ->
     note_fields (st_note st) !! dst_field self = Some oldDst ->
     colorize_loop self (characters_to_colorize self (media_strip raw))
       [] st = (Raise e, st1) ->
     addKanji self flag idx st = (Raise e, st1)) /\
  (forall flag idx st raw oldDst dst st1 e,
     exited_source_field self idx (st_note st) ->
     note_fields (st_note st) !! src_field self = Some raw ->
     note_fields (st_note st) !! dst_field self = Some oldDst ->
     colorize_loop self (characters_to_colorize self (media_strip raw))
       [] st = (Return dst, st1) ->
     oldDst = [] \/ overwrite_dest self = true ->
     dst <> oldDst -> dst <> [] -> note_id (st_note st) <> 0%Z ->
     (flush (note_with (st_note st) (dst_field self) dst) (st_col st1)).1
       = Raise e ->
     (addKanji self flag idx st).1 = Raise e).
Proof.
  split; [|split; [|split; [|split; [|split; [|split; [|split]]]]]].
  - intros pre c rest dst st Hc.
    rewrite !colorize_loop_app. unfold bind.
    destruct (colorize_loop self pre dst st) as [[d|e] st1]; [|reflexivity].
    simpl. unfold bind, colorize_character. rewrite Hc. reflexivity.
  - intros c rest dst st e Hc He. simpl.
    unfold bind, colorize_character. rewrite Hc.
    destruct e; try reflexivity. contradiction.
  - intros c rest dst st filename e Hc Hsvg. simpl.
    unfold bind, colorize_character. rewrite Hc. run. rewrite Hsvg.
    reflexivity.
  - intros c rest dst st filename svg Hc Hsvg Hu. simpl.
    unfold bind, colorize_character. rewrite Hc. run. rewrite Hsvg. simpl.
    rewrite Hu. reflexivity.
  - intros c rest dst st filename svg data e Hc Hsvg Hu Hw. simpl.
    unfold bind, colorize_character. rewrite Hc. run. rewrite Hsvg. simpl.
    rewrite Hu. simpl.
    destruct (media_writeData filename data (st_col st)) as [o col'].
    simpl in Hw. subst o. reflexivity.
  - intros pre rest dst st e st' Hpre.
    rewrite colorize_loop_app. apply bind_Raise, Hpre.
  - intros flag idx st raw oldDst e st1 Hrel Hsrc Hdst Hloop.
    rewrite (addKanji_after_loop self flag idx st raw oldDst Hrel Hsrc Hdst).
    rewrite Hloop. reflexivity.
  - intros flag idx st raw oldDst dst st1 e Hrel Hsrc Hdst Hloop Hguard
      Hdiff Hne Hid Hfl.
    rewrite (addKanji_after_loop self flag idx st raw oldDst Hrel Hsrc Hdst).
    rewrite Hloop.
    assert (negb (bool_decide (oldDst = [])) && negb (overwrite_dest self)
            = false) as ->.
    { destruct Hguard as [-> | ->]; [reflexivity | apply andb_false_r]. }
    rewrite (bool_decide_eq_false_2 _ Hdiff), (bool_decide_eq_false_2 _ Hne).
    apply Z.eqb_neq in Hid. rewrite Hid. simpl.
    destruct (flush (note_with (st_note st) (dst_field self) dst)
                (st_col st1)) as [[u|e'] col']; simpl in *; congruence.
Qed.

(** C9: the overwrite guard comes after the loop.  With overwriting off
    and a destination field that is not empty, [addKanji] ends in the state
    the loop left: the note is as it was, and when the loop ran to its end
    the calls made are those of every selected character, a rendering and a
    write to the media store for each one that KanjiVG did not reject. *)
Theorem addKanji_renders_before_guard (self : Profile) (flag : bool)
    (idx : option Z) (st : state) (raw oldDst : pystr) :
  overwrite_dest self = false ->
  oldDst <> [] ->
  exited_source_field self idx (st_note st) ->
  note_fields (st_note st) !! src_field self = Some raw ->
  note_fields (st_note st) !! dst_field self = Some oldDst ->
  (addKanji self flag idx st).2
    = (colorize_loop self (characters_to_colorize self (media_strip raw))
         [] st).2 /\
  st_note (addKanji self flag idx st).2 = st_note st /\
  (forall dst st1,
     colorize_loop self (characters_to_colorize self (media_strip raw))
       [] st = (Return dst, st1) ->
     addKanji self flag idx st = (Return flag, st1) /\
     st_calls st1
       = st_calls st
         ++ flat_map (calls_for self)
              (characters_to_colorize self (media_strip raw)) /\
     (forall c,
        c ∈ characters_to_colorize self (media_strip raw) ->
        ascii_filename c <> Raise InvalidCharacterError ->
        exists filename svg data,
          ascii_filename c = Return filename /\
          get_colored_svg (kanji_colorizer self) c = Return svg /\
          utf8 svg = Some data /\
          Render c ∈ st_calls st1 /\
          WriteData filename data ∈ st_calls st1)).
Proof.
  intros Hov Hold Hrel Hsrc Hdst.
  pose proof (addKanji_guarded self flag idx st raw oldDst
                Hov Hold Hrel Hsrc Hdst) as Hrun.
  pose proof (colorize_loop_frame self
                (characters_to_colorize self (media_strip raw)) [] st)
    as [Hnote _].
  split; [|split].
  - rewrite Hrun.
    destruct (colorize_loop self _ [] st) as [[d|e] st1]; reflexivity.
  - rewrite Hrun.
    destruct (colorize_loop self _ [] st) as [[d|e] st1]; exact Hnote.
  - intros dst st1 Hloop. rewrite Hloop in Hrun.
    destruct (colorize_loop_Return _ _ _ _ _ _ Hloop) as [Hcalls Hall].
    split; [exact Hrun|]. split; [exact Hcalls|].
    intros c Hin Hacc.
    rewrite Forall_forall in Hall.
    destruct (Hall c Hin) as [Hrej | (f & svg & data & Hf & Hs & Hu & Hc)];
      [contradiction|].
    exists f, svg, data. split; [exact Hf|]. split; [exact Hs|].
    split; [exact Hu|].
    assert (forall x, x ∈ calls_for self c -> x ∈ st_calls st1) as Hsub.
    { intros x Hx. rewrite Hcalls. apply elem_of_app. right.
      apply list_elem_of_In, in_flat_map. exists c.
      split; apply list_elem_of_In; assumption. }
    rewrite Hc in Hsub.
    split; apply Hsub; [left | right; left].
Qed.

End Diagram.

Lemma kanji_policy_selects_kanji_subsequence_witness :
  diagrammed_characters (Demo.profile (PStr (lit "kanji")) true)
    = PStr (lit "kanji") /\
  characters_to_colorize (Demo.profile (PStr (lit "kanji")) true)
    Demo.mixed_text `sublist_of` Demo.mixed_text.
Proof.
  split; [reflexivity|].
  apply (kanji_policy_selects_kanji_subsequence
           (Demo.profile (PStr (lit "kanji")) true) Demo.mixed_text).
  reflexivity.
Defined.

Lemma mixed_policy_kanji_or_everything_witness :
  mixed_policy (Demo.profile (PStr (lit "mixed")) true) /\
  characters_to_colorize (Demo.profile (PStr (lit "mixed")) true)
    Demo.kana_text = Demo.kana_text.
Proof.
  assert (mixed_policy (Demo.profile (PStr (lit "mixed")) true)) as Hm.
  { split; discriminate. }
  split; [exact Hm|].
  apply (mixed_policy_kanji_or_everything _ Demo.kana_text Hm).
  repeat constructor; unfold in_kanji_range, ord; lia.
Defined.

Lemma unrecognised_policy_is_mixed_witness :
  characters_to_colorize (Demo.profile PNone true) Demo.mixed_text
    = mixed_selection Demo.mixed_text /\
  characters_to_colorize (Demo.profile (PStr (lit "kanij")) true)
    Demo.kana_text = mixed_selection Demo.kana_text /\
  characters_to_colorize (Demo.profile (PList [PStr (lit "kanji")]) true)
    Demo.kana_text = mixed_selection Demo.kana_text.
Proof.
  pose proof (proj1 (unrecognised_policy_is_mixed
                       (py := Demo.pystr_impl) (lib := Demo.lib))) as H.
  repeat split; apply H; discriminate.
Defined.

(** C5, as stated, fails: a record without rendering options, one without
    the policy key and one whose mode is not a string are all rejected. *)
Lemma Profile_init_rejects_incomplete_record :
  Profile_init (py := Demo.pystr_impl) (lib := Demo.lib) ∅
    = Raise (KeyError (lit "mode")) /\
  Profile_init (py := Demo.pystr_impl) (lib := Demo.lib) Demo.rendering
    = Raise (KeyError (lit "diagrammed-characters")) /\
  Profile_init (py := Demo.pystr_impl) (lib := Demo.lib)
    (<[lit "mode" := PInt 3]> (Demo.config (PStr (lit "all"))))
    = Raise TypeError.
Proof.
  repeat split; vm_compute; reflexivity.
Qed.

Lemma Profile_init_defaults_witness :
  exists self,
    Profile_init (py := Demo.pystr_impl) (lib := Demo.lib)
      Demo.config_mistyped = Return self /\
    model_name_substr self = lit "japanese" /\
    src_field self = lit "Kanji" /\
    dst_field self = lit "Diagram" /\
    overwrite_dest self = true.
Proof.
  pose proof (Profile_init_defaults (py := Demo.pystr_impl)
                (lib := Demo.lib) Demo.config_mistyped) as (_ & _ & H & _).
  eexists. split; [vm_compute; reflexivity|].
  specialize (H _ ltac:(vm_compute; reflexivity))
    as (_ & Hm & _ & Hs & _ & Hd & _ & Ho & _).
  split; [|split; [|split]].
  - rewrite Hm; [reflexivity | intros s; vm_compute; discriminate].
  - rewrite Hs; [reflexivity | intros s; vm_compute; discriminate].
  - rewrite Hd; [reflexivity | intros s; vm_compute; discriminate].
  - rewrite Ho; [reflexivity | intros b; vm_compute; discriminate].
Defined.

Lemma model_is_correct_type_iff_witness :
  model_is_correct_type (py := Demo.pystr_impl) (host := Demo.host)
    (Demo.profile PNone true) Demo.japanese_model
    (Demo.start (Demo.a_note 0 [] []))
  = (Return true, Demo.start (Demo.a_note 0 [] [])).
Proof.
  apply (model_is_correct_type_iff (py := Demo.pystr_impl)
           (host := Demo.host) (Demo.profile PNone true)
           Demo.japanese_model (Demo.start (Demo.a_note 0 [] [])));
    try reflexivity.
  split; apply list_elem_of_In; simpl; tauto.
Defined.

Lemma addKanji_unrelated_field_witness :
  py_index (flds (note_model (Demo.a_note 7 Demo.mixed_text []))) (-2)
    = Some {| fld_name := lit "Reading" |} /\
  addKanji (Demo.profile PNone true) true (Some (-2)%Z)
    (Demo.start (Demo.a_note 7 Demo.mixed_text []))
  = (Return true, Demo.start (Demo.a_note 7 Demo.mixed_text [])).
Proof.
  split; [reflexivity|].
  apply (addKanji_unrelated_field (Demo.profile PNone true) true (-2)
           {| fld_name := lit "Reading" |}
           (Demo.start (Demo.a_note 7 Demo.mixed_text []))).
  - reflexivity.
  - discriminate.
Defined.

Lemma addKanji_keeps_filled_destination_witness :
  overwrite_dest (Demo.profile PNone false) = false /\
  lit "old" <> [] /\
  st_note (addKanji (Demo.profile PNone false) false None
             (Demo.start (Demo.a_note 7 Demo.mixed_text (lit "old")))).2
  = Demo.a_note 7 Demo.mixed_text (lit "old").
Proof.
  split; [reflexivity|]. split; [discriminate|].
  apply (addKanji_keeps_filled_destination (Demo.profile PNone false) false
           None (Demo.start (Demo.a_note 7 Demo.mixed_text (lit "old")))
           (lit "old")).
  - reflexivity.
  - vm_compute. reflexivity.
  - discriminate.
Defined.

Lemma addKanji_overwrites_destination_witness :
  overwrite_dest (Demo.profile PNone true) = true /\
  (addKanji (Demo.profile PNone true) false None
     (Demo.start (Demo.a_note 7 Demo.mixed_text (lit "old")))).1
  = Return true /\
  note_fields
    (st_note (addKanji (Demo.profile PNone true) false None
                (Demo.start (Demo.a_note 7 Demo.mixed_text (lit "old")))).2)
    !! lit "Diagram"
  = Some (img_tag ([26085] ++ lit ".svg") ++ img_tag ([26412] ++ lit ".svg")).
Proof.
  pose proof (addKanji_overwrites_destination
                (Demo.profile PNone true) false None
                (Demo.start (Demo.a_note 7 Demo.mixed_text (lit "old")))
                (colorize_loop (Demo.profile PNone true)
                   [26085; 26412] []
                   (Demo.start
                      (Demo.a_note 7 Demo.mixed_text (lit "old")))).2
                Demo.mixed_text (lit "old")
                (img_tag ([26085] ++ lit ".svg") ++
                 img_tag ([26412] ++ lit ".svg"))
                eq_refl I) as H.
  destruct H as ((Hfield & _ & _ & Hflush) & _).
  - vm_compute. reflexivity.
  - vm_compute. reflexivity.
  - vm_compute. reflexivity.
  - discriminate.
  - discriminate.
  - split; [reflexivity|]. split; [|exact Hfield].
    destruct Hflush as (_ & _ & ->); [discriminate | reflexivity].
Defined.

Lemma invalid_character_skipped_others_propagate_witness :
  colorize_loop (Demo.profile PNone true) ([26085] ++ 97 :: [26412]) []
    (Demo.start (Demo.a_note 7 Demo.mixed_text []))
  = colorize_loop (Demo.profile PNone true) ([26085] ++ [26412]) []
      (Demo.start (Demo.a_note 7 Demo.mixed_text [])) /\
  colorize_loop (Demo.profile PNone true) (0 :: [26412]) []
    (Demo.start (Demo.a_note 7 Demo.mixed_text []))
  = (Raise (OtherError (lit "ValueError")),
     Demo.start (Demo.a_note 7 Demo.mixed_text [])).
Proof.
  destruct (invalid_character_skipped_others_propagate
              (host := Demo.host) (Demo.profile PNone true))
    as (Hskip & Hother & _).
  split.
  - apply Hskip. reflexivity.
  - apply Hother; [reflexivity | discriminate].
Defined.

Lemma addKanji_renders_before_guard_witness :
  overwrite_dest (Demo.profile (PStr (lit "all")) false) = false /\
  lit "old" <> [] /\
  st_note (addKanji (Demo.profile (PStr (lit "all")) false) false None
             (Demo.start (Demo.a_note 7 Demo.mixed_text (lit "old")))).2
  = Demo.a_note 7 Demo.mixed_text (lit "old") /\
  Render 26085
    ∈ st_calls
        (addKanji (Demo.profile (PStr (lit "all")) false) false None
           (Demo.start (Demo.a_note 7 Demo.mixed_text (lit "old")))).2 /\
  st_col (addKanji (Demo.profile (PStr (lit "all")) false) false None
            (Demo.start (Demo.a_note 7 Demo.mixed_text (lit "old")))).2
  <> [].
Proof.
  split; [reflexivity|]. split; [discriminate|].
  destruct (addKanji_renders_before_guard
              (Demo.profile (PStr (lit "all")) false) false None
              (Demo.start (Demo.a_note 7 Demo.mixed_text (lit "old")))
              Demo.mixed_text (lit "old"))
    as (Hstate & Hnote & Hdone).
  - reflexivity.
  - discriminate.
  - exact I.
  - vm_compute. reflexivity.
  - vm_compute. reflexivity.
  - split; [exact Hnote|].
    destruct (Hdone
                (img_tag ([26085] ++ lit ".svg") ++
                 img_tag ([26412] ++ lit ".svg"))
                (colorize_loop (Demo.profile (PStr (lit "all")) false)
                   Demo.mixed_text []
                   (Demo.start
                      (Demo.a_note 7 Demo.mixed_text (lit "old")))).2)
      as (Hrun & _ & Hall).
    + vm_compute. reflexivity.
    + rewrite Hrun. split.
      * destruct (Hall 26085) as (f & svg & data & _ & _ & _ & Hr & _).
        -- apply list_elem_of_In. vm_compute. tauto.
        -- discriminate.
        -- exact Hr.
      * vm_compute. discriminate.
Defined.

(** * Further properties *)

(** ** Character selection, whatever the policy *)

Section SelectionMore.
Context {lib : KanjiLib}.

Lemma filter_kanji_all (s : pystr) :
  Forall in_kanji_range s -> List.filter is_kanji s = s.
Proof.
  induction 1 as [|c s Hc _ IH]; simpl; [reflexivity|].
  apply is_kanji_spec in Hc. rewrite Hc, IH. reflexivity.
Qed.

Lemma filter_kanji_sublist (s : pystr) : List.filter is_kanji s `sublist_of` s.
Proof.
  induction s as [|c s IH]; simpl; [constructor|].
  destruct (is_kanji c); [apply sublist_skip | apply sublist_cons]; exact IH.
Qed.

Lemma filter_kanji_empty (s : pystr) :
  List.filter is_kanji s = [] <-> Forall (fun c => ~ in_kanji_range c) s.
Proof.
  split; [|apply filter_kanji_none].
  induction s as [|c s IH]; simpl; [constructor|].
  destruct (is_kanji c) eqn:E; [discriminate|].
  intros Hs. constructor; [|apply IH, Hs].
  rewrite <- is_kanji_spec. congruence.
Qed.

(** The three branches of [characters_to_colorize]. *)
Lemma characters_to_colorize_cases (self : Profile) (s : pystr) :
  (diagrammed_characters self = PStr (lit "all") /\
   characters_to_colorize self s = s) \/
  (diagrammed_characters self = PStr (lit "kanji") /\
   characters_to_colorize self s = List.filter is_kanji s) \/
  (mixed_policy self /\
   characters_to_colorize self s =
     if (1 <=? length (List.filter is_kanji s))%nat
     then List.filter is_kanji s else s).
Proof.
  destruct (py_eq_str (diagrammed_characters self) (lit "all")) eqn:Hall.
  - left. split; [apply py_eq_str_true, Hall|].
    unfold characters_to_colorize. rewrite Hall. reflexivity.
  - destruct (py_eq_str (diagrammed_characters self) (lit "kanji"))
      eqn:Hkanji.
    + right. left. split; [apply py_eq_str_true, Hkanji|].
      unfold characters_to_colorize. rewrite Hall, Hkanji. reflexivity.
    + right. right.
      assert (mixed_policy self) as Hm
        by (split; apply py_eq_str_false; assumption).
      split; [exact Hm | apply mixed_policy_selection, Hm].
Qed.

(** X1: whatever the policy value, the selected characters are a
    subsequence of the text: no character is invented, repeated or moved. *)
Theorem selection_is_subsequence (self : Profile) (s : pystr) :
  characters_to_colorize self s `sublist_of` s.
Proof.
  destruct (characters_to_colorize_cases self s)
    as [[_ ->] | [[_ ->] | [_ ->]]].
  - reflexivity.
  - apply filter_kanji_sublist.
  - destruct (1 <=? _)%nat; [apply filter_kanji_sublist | reflexivity].
Qed.

(** X2: a text made of kanji only is selected whole under every policy. *)
Theorem kanji_text_selected_whole (self : Profile) (s : pystr) :
  Forall in_kanji_range s -> characters_to_colorize self s = s.
Proof.
  intros Hs.
  destruct (characters_to_colorize_cases self s)
    as [[_ ->] | [[_ ->] | [_ ->]]].
  - reflexivity.
  - apply filter_kanji_all, Hs.
  - rewrite (filter_kanji_all s Hs). destruct (1 <=? _)%nat; reflexivity.
Qed.

(** X3: nothing is selected only from the empty text, or under the policy
    ['kanji'] from a text without kanji. *)
Theorem selection_empty_iff (self : Profile) (s : pystr) :
  characters_to_colorize self s = [] <->
  s = [] \/
  (diagrammed_characters self = PStr (lit "kanji") /\
   Forall (fun c => ~ in_kanji_range c) s).
Proof.
  destruct (characters_to_colorize_cases self s)
    as [[Hp ->] | [[Hp ->] | [[Hall Hkanji] ->]]].
  - split; [tauto|]. intros [Hs | [Hk _]]; [exact Hs|].
    rewrite Hp in Hk. vm_compute in Hk. discriminate.
  - rewrite filter_kanji_empty. split; [tauto|].
    intros [-> | [_ Hs]]; [constructor | exact Hs].
  - destruct (1 <=? length (List.filter is_kanji s))%nat eqn:E.
    + split.
      * intros Hnil. rewrite Hnil in E. discriminate.
      * intros [-> | [Hk _]]; [discriminate | contradiction].
    + split; [tauto|]. intros [Hs | [Hk _]]; [exact Hs | contradiction].
Qed.

(** X4: selecting again from the selected characters changes nothing. *)
Theorem selection_idempotent (self : Profile) (s : pystr) :
  characters_to_colorize self (characters_to_colorize self s)
  = characters_to_colorize self s.
Proof.
  assert (forall t, List.filter is_kanji (List.filter is_kanji t)
                    = List.filter is_kanji t) as Hff.
  { intros t. apply filter_kanji_all, Forall_forall.
    intros c Hc. apply list_elem_of_In, filter_In in Hc as [_ Hc].
    apply is_kanji_spec, Hc. }
  destruct (characters_to_colorize_cases self s)
    as [[Hp Hs] | [[Hp Hs] | [Hp Hs]]]; rewrite Hs.
  - exact Hs.
  - unfold characters_to_colorize. rewrite Hp. simpl. apply Hff.
  - destruct (1 <=? length (List.filter is_kanji s))%nat eqn:E.
    + rewrite (mixed_policy_selection _ _ Hp), Hff, E. reflexivity.
    + rewrite (mixed_policy_selection _ _ Hp), E. reflexivity.
Qed.

(** X5: the policy ['kanji'] and the mixed policy select the same
    characters exactly from the texts that hold a kanji, and the empty
    one. *)
Theorem kanji_and_mixed_agree_iff (self self' : Profile) (s : pystr) :
  diagrammed_characters self = PStr (lit "kanji") ->
  mixed_policy self' ->
  (characters_to_colorize self s = characters_to_colorize self' s <->
   Exists in_kanji_range s \/ s = []).
Proof.
  intros Hk Hm. rewrite (mixed_policy_selection self' s Hm).
  assert (characters_to_colorize self s = List.filter is_kanji s) as ->.
  { unfold characters_to_colorize. rewrite Hk. reflexivity. }
  destruct (1 <=? length (List.filter is_kanji s))%nat eqn:E.
  - apply filter_kanji_nonempty in E. tauto.
  - assert (~ Exists in_kanji_range s) as Hno.
    { rewrite <- filter_kanji_nonempty. congruence. }
    assert (List.filter is_kanji s = []) as ->.
    { destruct (List.filter is_kanji s); [reflexivity | discriminate]. }
    split; [intros <-; right; reflexivity|].
    intros [Hex | ->]; [contradiction | reflexivity].
Qed.

End SelectionMore.

Lemma kanji_text_selected_whole_witness :
  Forall in_kanji_range [26085; 26412] /\
  characters_to_colorize (Demo.profile (PStr (lit "kanji")) true)
    [26085; 26412] = [26085; 26412].
Proof.
  assert (Forall in_kanji_range [26085; 26412]) as H.
  { repeat constructor; unfold ord; lia. }
  split; [exact H|].
  apply (kanji_text_selected_whole _ _ H).
Defined.

Lemma kanji_and_mixed_agree_iff_witness :
  characters_to_colorize (Demo.profile (PStr (lit "kanji")) true) []
  = characters_to_colorize (Demo.profile PNone true) [].
Proof.
  apply (kanji_and_mixed_agree_iff
           (Demo.profile (PStr (lit "kanji")) true)
           (Demo.profile PNone true) []).
  - reflexivity.
  - split; discriminate.
  - right. reflexivity.
Defined.

(** ** Construction and loading of profiles *)

Section ConstructionMore.
Context {py : PyStr} {lib : KanjiLib}.

Lemma dict_get_insert_ne (d : gmap pystr pyval) (k k' : pystr) (v : pyval) :
  k <> k' -> dict_get (<[k := v]> d) k' = dict_get d k'.
Proof.
  intros Hne. unfold dict_get. rewrite lookup_insert_ne by exact Hne.
  reflexivity.
Qed.

Lemma dict_get_insert_eq (d : gmap pystr pyval) (k : pystr) (v : pyval) :
  dict_get (<[k := v]> d) k = Return v.
Proof. unfold dict_get. rewrite lookup_insert_eq. reflexivity. Qed.

Lemma Profile_init_Return (data : gmap pystr pyval) (self : Profile) :
  Profile_init data = Return self ->
  exists kc dc,
    make_kanji_colorizer data = Return kc /\
    data !! lit "diagrammed-characters" = Some dc /\
    self =
      {| kanji_colorizer := kc;
         model_name_substr :=
           match data !! lit "model" ≫= as_str with
           | Some s => py_lower s
           | None => lit "japanese"
           end;
         src_field :=
           match data !! lit "src-field" ≫= as_str with
           | Some s => s
           | None => lit "Kanji"
           end;
         dst_field :=
           match data !! lit "dst-field" ≫= as_str with
           | Some s => s
           | None => lit "Diagram"
           end;
         overwrite_dest :=
           match data !! lit "overwrite-dest" ≫= as_bool with
           | Some b => b
           | None => true
           end;
         diagrammed_characters := dc |}.
Proof.
  unfold Profile_init.
  intros (kc & Hkc & Hrest)%obind_Return.
  apply obind_Return in Hrest as (dc & Hdc%dict_get_Return & [= <-]).
  exists kc, dc. done.
Qed.

(** X6: the exception of a failed construction is that of the first step
    that fails, in the order mode, group-mode, saturation, value,
    image-size, the colorizer, diagrammed-characters: a missing key gives
    [KeyError] with that key, a mode that is not a string [TypeError]. *)
Theorem Profile_init_first_failure (data : gmap pystr pyval) :
  (data !! lit "mode" = None ->
   Profile_init data = Raise (KeyError (lit "mode"))) /\
  (forall v, data !! lit "mode" = Some v -> as_str v = None ->
   Profile_init data = Raise TypeError) /\
  (forall mode, data !! lit "mode" = Some (PStr mode) ->
   (data !! lit "group-mode" = None ->
    Profile_init data = Raise (KeyError (lit "group-mode"))) /\
   (is_Some (data !! lit "group-mode") ->
    data !! lit "saturation" = None ->
    Profile_init data = Raise (KeyError (lit "saturation"))) /\
   (is_Some (data !! lit "group-mode") ->
    is_Some (data !! lit "saturation") ->
    data !! lit "value" = None ->
    Profile_init data = Raise (KeyError (lit "value"))) /\
   (is_Some (data !! lit "group-mode") ->
    is_Some (data !! lit "saturation") ->
    is_Some (data !! lit "value") ->
    data !! lit "image-size" = None ->
    Profile_init data = Raise (KeyError (lit "image-size")))) /\
  (forall e, make_kanji_colorizer data = Raise e ->
   Profile_init data = Raise e) /\
  (forall kc, make_kanji_colorizer data = Return kc ->
   data !! lit "diagrammed-characters" = None ->
   Profile_init data = Raise (KeyError (lit "diagrammed-characters"))).
Proof.
  unfold Profile_init, make_kanji_colorizer, dict_get.
  split; [intros ->; reflexivity|].
  split; [intros v -> Hv; destruct v; try reflexivity; discriminate|].
  split.
  - intros mode ->. simpl. repeat split.
    + intros ->. reflexivity.
    + intros [gm ->] ->. reflexivity.
    + intros [gm ->] [sat ->] ->. reflexivity.
    + intros [gm ->] [sat ->] [val ->] ->. reflexivity.
  - split.
    + intros e ->. reflexivity.
    + intros kc -> ->. reflexivity.
Qed.

(** X7: a key other than the ten the constructor reads has no effect on
    the profile, whatever its value. *)
Theorem Profile_init_ignores_other_keys (data : gmap pystr pyval)
    (k : pystr) (v : pyval) :
  k ∉ known_keys ->
  Profile_init (<[k := v]> data) = Profile_init data.
Proof.
  intros Hk.
  assert (forall k', k' ∈ known_keys -> k <> k') as Hne
    by (intros k' Hk' ->; contradiction).
  assert (forall k', k' ∈ known_keys ->
            (<[k := v]> data) !! k' = data !! k') as Hlook.
  { intros k' Hk'. apply lookup_insert_ne, Hne, Hk'. }
  assert (forall n, n < 10 ->
            match known_keys !! N.to_nat n with
            | Some k' => (<[k := v]> data) !! k' = data !! k'
            | None => True
            end)%N as Hnth.
  { intros n _. destruct (known_keys !! N.to_nat n) as [k'|] eqn:E; [|done].
    apply Hlook. eapply list_elem_of_lookup_2, E. }
  pose proof (Hnth 0 eq_refl) as H0. pose proof (Hnth 1 eq_refl) as H1.
  pose proof (Hnth 2 eq_refl) as H2. pose proof (Hnth 3 eq_refl) as H3.
  pose proof (Hnth 4 eq_refl) as H4. pose proof (Hnth 5 eq_refl) as H5.
  pose proof (Hnth 6 eq_refl) as H6. pose proof (Hnth 7 eq_refl) as H7.
  pose proof (Hnth 8 eq_refl) as H8. pose proof (Hnth 9 eq_refl) as H9.
  simpl in H0, H1, H2, H3, H4, H5, H6, H7, H8, H9.
  unfold Profile_init, make_kanji_colorizer, dict_get.
  rewrite H0, H1, H2, H3, H4, H5, H6, H7, H8, H9. reflexivity.
Qed.

(** X8: group-mode is read for its truth value only: two values that are
    both true, or both false, give the same profile. *)
Theorem group_mode_by_truth_value (data : gmap pystr pyval) (v v' : pyval) :
  truthy v = truthy v' ->
  Profile_init (<[lit "group-mode" := v]> data)
  = Profile_init (<[lit "group-mode" := v']> data).
Proof.
  intros Ht.
  unfold Profile_init, make_kanji_colorizer.
  rewrite !dict_get_insert_eq.
  rewrite !(dict_get_insert_ne _ (lit "group-mode")) by discriminate.
  rewrite !(lookup_insert_ne _ (lit "group-mode")) by discriminate.
  simpl. rewrite Ht. reflexivity.
Qed.

Lemma comprehension_Return {A B} (f : A -> outcome B) (l : list A)
    (r : list B) :
  comprehension f l = Return r <-> Forall2 (fun x y => f x = Return y) l r.
Proof.
  revert r. induction l as [|x l IH]; intros r; simpl.
  - split.
    + intros [= <-]. constructor.
    + intros Hr. inversion Hr. reflexivity.
  - rewrite obind_Return. split.
    + intros (y & Hy & (ys & Hys & [= <-])%obind_Return).
      constructor; [exact Hy | apply IH, Hys].
    + intros Hr. inversion Hr as [|? y ? ys Hy Hys]; subst.
      exists y. split; [exact Hy|]. apply obind_Return.
      exists ys. split; [apply IH, Hys | reflexivity].
Qed.

(** X9: a configured list of records loads as a whole or not at all: it
    yields profiles exactly when every record constructs one, and then one
    profile per record, in the order of the list. *)
Theorem profiles_loaded_iff (addon_config : gmap pystr pyval)
    (l : list pyval) (loaded : list Profile) :
  addon_config !! lit "profiles" = Some (PList l) ->
  (profiles addon_config = Return loaded <->
   Forall2 (fun p self => Profile_of p = Return self) l loaded).
Proof.
  intros Hl. unfold profiles, dict_get. rewrite Hl. simpl.
  destruct l as [|p l]; [|apply comprehension_Return].
  simpl. split.
  - intros [= <-]. constructor.
  - intros Hr. inversion Hr. reflexivity.
Qed.

(** X10: one record that fails to construct makes the whole load fail, so
    that no profile is loaded. *)
Theorem profiles_fail_on_one_bad_record (addon_config : gmap pystr pyval)
    (l : list pyval) (p : pyval) (e : exn) :
  addon_config !! lit "profiles" = Some (PList l) ->
  p ∈ l ->
  Profile_of p = Raise e ->
  exists e', profiles addon_config = Raise e'.
Proof.
  intros Hl Hp He.
  assert (exists e', comprehension Profile_of l = Raise e') as [e' Hfail].
  { clear Hl. induction l as [|x l IH]; [inversion Hp|].
    simpl. apply elem_of_cons in Hp as [<- | Hp].
    - rewrite He. simpl. eauto.
    - destruct (Profile_of x) as [y|ex]; simpl; [|eauto].
      destruct (IH Hp) as [e' ->]. simpl. eauto. }
  exists e'. unfold profiles, dict_get. rewrite Hl. simpl.
  destruct l; [inversion Hp | exact Hfail].
Qed.

(** X11: a configuration whose profiles value is false (None, an empty
    list, 0, ...) loads no profile, and one without the key is rejected. *)
Theorem profiles_none_configured (addon_config : gmap pystr pyval) :
  (forall v, addon_config !! lit "profiles" = Some v -> truthy v = false ->
   profiles addon_config = Return []) /\
  (addon_config !! lit "profiles" = None ->
   profiles addon_config = Raise (KeyError (lit "profiles"))).
Proof.
  unfold profiles, dict_get. split.
  - intros v -> Hv. simpl. rewrite Hv. reflexivity.
  - intros ->. reflexivity.
Qed.

End ConstructionMore.

Lemma Profile_init_ignores_other_keys_witness :
  (lit "note" ∉ known_keys) /\
  Profile_init (py := Demo.pystr_impl) (lib := Demo.lib)
    (<[lit "note" := PNone]> Demo.config_full)
  = Profile_init (py := Demo.pystr_impl) (lib := Demo.lib) Demo.config_full.
Proof.
  assert (lit "note" ∉ known_keys) as H.
  { intros H. apply list_elem_of_In in H. vm_compute in H.
    repeat (destruct H as [H|H]; [discriminate H|]). exact H. }
  split; [exact H|].
  apply (Profile_init_ignores_other_keys (py := Demo.pystr_impl)
           (lib := Demo.lib) Demo.config_full (lit "note") PNone H).
Defined.

Lemma group_mode_by_truth_value_witness :
  truthy (PInt 1) = truthy (PStr (lit "yes")) /\
  Profile_init (py := Demo.pystr_impl) (lib := Demo.lib)
    (<[lit "group-mode" := PInt 1]> Demo.config_full)
  = Profile_init (py := Demo.pystr_impl) (lib := Demo.lib)
      (<[lit "group-mode" := PStr (lit "yes")]> Demo.config_full).
Proof.
  split; [reflexivity|].
  apply (group_mode_by_truth_value (py := Demo.pystr_impl)
           (lib := Demo.lib) Demo.config_full (PInt 1) (PStr (lit "yes"))).
  reflexivity.
Defined.

Lemma profiles_loaded_iff_witness :
  exists loaded,
    profiles (py := Demo.pystr_impl) (lib := Demo.lib)
      {[ lit "profiles" :=
           PList [PDict (map_to_list Demo.config_full);
                  PDict (map_to_list Demo.config_mistyped)] ]}
    = Return loaded /\
    length loaded = 2%nat.
Proof.
  eexists. split.
  - apply (profiles_loaded_iff (py := Demo.pystr_impl) (lib := Demo.lib)
             {[ lit "profiles" :=
                  PList [PDict (map_to_list Demo.config_full);
                         PDict (map_to_list Demo.config_mistyped)] ]}
             [PDict (map_to_list Demo.config_full);
              PDict (map_to_list Demo.config_mistyped)]).
    + apply lookup_singleton_eq.
    + constructor; [vm_compute; reflexivity|].
      constructor; [vm_compute; reflexivity|]. constructor.
  - reflexivity.
Defined.

Lemma profiles_fail_on_one_bad_record_witness :
  exists e,
    profiles (py := Demo.pystr_impl) (lib := Demo.lib)
      {[ lit "profiles" :=
           PList [PDict (map_to_list Demo.config_full);
                  PDict (map_to_list Demo.rendering)] ]}
    = Raise e.
Proof.
  apply (profiles_fail_on_one_bad_record (py := Demo.pystr_impl)
           (lib := Demo.lib) _
           [PDict (map_to_list Demo.config_full);
            PDict (map_to_list Demo.rendering)]
           (PDict (map_to_list Demo.rendering))
           (KeyError (lit "diagrammed-characters"))).
  - apply lookup_singleton_eq.
  - right. left.
  - vm_compute. reflexivity.
Defined.

(** ** Matching, case and fields *)

Section MatchingMore.
Context {py : PyStr} {lib : KanjiLib} {host : AnkiHost}.

Lemma str_contains_nil (s : pystr) : str_contains [] s = true.
Proof. destruct s; reflexivity. Qed.

Lemma model_is_correct_type_run (self : Profile) (m : model) (st : state) :
  model_is_correct_type self m st
  = (Return (str_contains (model_name_substr self) (py_lower (name m)) &&
             bool_decide (src_field self ∈ fieldNames m) &&
             bool_decide (dst_field self ∈ fieldNames m)), st).
Proof. reflexivity. Qed.

Lemma model_is_correct_type_true (self : Profile) (m : model) (st : state) :
  model_is_correct_type self m st = (Return true, st) <->
  str_contains (model_name_substr self) (py_lower (name m)) = true /\
  src_field self ∈ fieldNames m /\
  dst_field self ∈ fieldNames m.
Proof.
  rewrite model_is_correct_type_run. split.
  - intros [= Hall].
    apply andb_true_iff in Hall as [Hall Hd].
    apply andb_true_iff in Hall as [Hn Hs].
    apply bool_decide_eq_true in Hs, Hd. done.
  - intros (Hn & Hs & Hd).
    rewrite Hn, !bool_decide_eq_true_2 by assumption. reflexivity.
Qed.

(** X12: a profile configured with the empty model substring matches
    every model that has its two fields, whatever the model's name. *)
Theorem empty_substring_matches_every_name (data : gmap pystr pyval)
    (self : Profile) (m : model) (st : state) :
  data !! lit "model" = Some (PStr []) ->
  Profile_init data = Return self ->
  (model_is_correct_type self m st = (Return true, st) <->
   src_field self ∈ fieldNames m /\ dst_field self ∈ fieldNames m).
Proof.
  intros Hmodel (kc & dc & _ & _ & ->)%Profile_init_Return.
  rewrite model_is_correct_type_true. simpl. rewrite Hmodel. simpl.
  rewrite (py_lower_ascii []) by constructor. simpl.
  rewrite str_contains_nil. tauto.
Qed.

(** X13: on ASCII names the match ignores the case of the model's name:
    two models with the same fields whose names differ in case only get
    the same answer. *)
Theorem matching_ignores_case_of_name (self : Profile) (m m' : model)
    (st : state) :
  is_ascii (name m) -> is_ascii (name m') ->
  List.map ascii_lower (name m) = List.map ascii_lower (name m') ->
  flds m = flds m' ->
  model_is_correct_type self m st = model_is_correct_type self m' st.
Proof.
  intros Ha Ha' Hlow Hflds. rewrite !model_is_correct_type_run.
  unfold fieldNames.
  rewrite (py_lower_ascii _ Ha), (py_lower_ascii _ Ha'), Hlow, Hflds.
  reflexivity.
Qed.

(** X14: the constructor ignores the case of the configured model
    substring: two ASCII spellings that differ in case only configure the
    same profile. *)
Theorem configured_substring_ignores_case (data : gmap pystr pyval)
    (s s' : pystr) :
  is_ascii s -> is_ascii s' ->
  List.map ascii_lower s = List.map ascii_lower s' ->
  Profile_init (<[lit "model" := PStr s]> data)
  = Profile_init (<[lit "model" := PStr s']> data).
Proof.
  intros Ha Ha' Hlow.
  unfold Profile_init, make_kanji_colorizer, dict_get.
  rewrite !lookup_insert_eq.
  rewrite !(lookup_insert_ne _ (lit "model")) by discriminate.
  simpl. rewrite (py_lower_ascii _ Ha), (py_lower_ascii _ Ha'), Hlow.
  reflexivity.
Qed.

(** X15: a match depends on which fields a model has, not on their order
    or number: a model of the same name that has at least the fields of a
    matching model matches too. *)
Theorem matching_monotone_in_fields (self : Profile) (m m' : model)
    (st : state) :
  name m = name m' ->
  fieldNames m ⊆ fieldNames m' ->
  model_is_correct_type self m st = (Return true, st) ->
  model_is_correct_type self m' st = (Return true, st).
Proof.
  intros Hname Hsub. rewrite !model_is_correct_type_true, Hname.
  intros (Hn & Hs & Hd). split; [exact Hn|]. split; apply Hsub; assumption.
Qed.

(** X16: a profile configured without model, src-field and dst-field
    matches exactly the models whose lower-cased name contains "japanese"
    and that have a field "Kanji" and a field "Diagram". *)
Theorem default_profile_matches_japanese (data : gmap pystr pyval)
    (self : Profile) (m : model) (st : state) :
  data !! lit "model" = None ->
  data !! lit "src-field" = None ->
  data !! lit "dst-field" = None ->
  Profile_init data = Return self ->
  (model_is_correct_type self m st = (Return true, st) <->
   (exists pre post, py_lower (name m) = pre ++ lit "japanese" ++ post) /\
   lit "Kanji" ∈ fieldNames m /\
   lit "Diagram" ∈ fieldNames m).
Proof.
  intros Hm Hs Hd (kc & dc & _ & _ & ->)%Profile_init_Return.
  rewrite model_is_correct_type_true, str_contains_spec. simpl.
  rewrite Hm, Hs, Hd. reflexivity.
Qed.

End MatchingMore.

(** ** Adding the diagram: every way through *)

Section DiagramMore.
Context {lib : KanjiLib} {host : AnkiHost}.

Ltac run :=
  unfold bind, ret, raise, lift, get_note, set_note, record, on_collection,
    encode_utf_8 in *; simpl in *.

Lemma addKanji_no_destination (self : Profile) (flag : bool)
    (idx : option Z) (st : state) (raw : pystr) :
  exited_source_field self idx (st_note st) ->
  note_fields (st_note st) !! src_field self = Some raw ->
  note_fields (st_note st) !! dst_field self = None ->
  addKanji self flag idx st = (Raise (KeyError (dst_field self)), st).
Proof.
  intros Hrel Hsrc Hdst. unfold addKanji, note_getitem. run.
  destruct idx as [i|]; simpl in *.
  - destruct Hrel as (f & -> & Hf). simpl.
    rewrite bool_decide_eq_true_2 by exact Hf. simpl.
    rewrite Hsrc. simpl. rewrite Hdst. reflexivity.
  - rewrite Hsrc. simpl. rewrite Hdst. reflexivity.
Qed.

Lemma addKanji_paths (self : Profile) (flag : bool) (idx : option Z)
    (st : state) :
  addKanji_path self flag idx st (addKanji self flag idx st).
Proof.
  assert (exited_source_field self idx (st_note st) ->
          addKanji_path self flag idx st (addKanji self flag idx st))
    as Hrelated.
  { intros Hrel.
    destruct (note_fields (st_note st) !! src_field self) as [raw|] eqn:Hsrc.
    - destruct (note_fields (st_note st) !! dst_field self) as [oldDst|]
        eqn:Hdst.
      + rewrite (addKanji_after_loop self flag idx st raw oldDst)
          by assumption.
        apply (path_loop self flag idx st raw oldDst); assumption.
      + rewrite (addKanji_no_destination self flag idx st raw)
          by assumption.
        apply (path_no_destination self flag idx st raw); assumption.
    - rewrite (addKanji_no_source self flag idx st Hrel Hsrc).
      apply path_no_source; assumption. }
  destruct idx as [i|]; [|apply Hrelated; exact I].
  destruct (py_index (flds (note_model (st_note st))) i) as [f|] eqn:Hi.
  - destruct (decide (fld_name f = src_field self)) as [Hf|Hf].
    + apply Hrelated. exists f. done.
    + rewrite (addKanji_unrelated self flag i f st Hi Hf).
      apply (path_unrelated self flag (Some i) st i f); done.
  - rewrite (addKanji_bad_index self flag i st Hi).
    apply (path_bad_index self flag (Some i) st i); done.
Qed.

Lemma note_with_changes (n : note) (k old v : pystr) :
  note_fields n !! k = Some old -> v <> old -> note_with n k v <> n.
Proof.
  intros Hold Hne Heq.
  assert (note_fields (note_with n k v) !! k = Some v) as Hv
    by apply lookup_insert_eq.
  rewrite Heq in Hv. congruence.
Qed.

(** After a loop that ran to its end: either nothing is written, or the
    markup is stored and, for a note with an id, flushed. *)
Lemma after_loop_Return (self : Profile) (flag : bool) (n : note)
    (oldDst dst : pystr) (st1 : state) :
  let r := after_loop self flag n oldDst (Return dst, st1) in
  r = (Return flag, st1) \/
  (dst <> oldDst /\ dst <> [] /\
   (oldDst = [] \/ overwrite_dest self = true) /\
   st_note r.2 = note_with n (dst_field self) dst /\
   ((note_id n = 0%Z /\ r.1 = Return true /\
     st_col r.2 = st_col st1 /\ st_calls r.2 = st_calls st1) \/
    (note_id n <> 0%Z /\
     r.1 = match (flush (note_with n (dst_field self) dst) (st_col st1)).1
           with Return _ => Return true | Raise e => Raise e end /\
     st_col r.2
       = (flush (note_with n (dst_field self) dst) (st_col st1)).2 /\
     st_calls r.2
       = st_calls st1 ++ [Flush (note_with n (dst_field self) dst)]))).
Proof.
  simpl.
  destruct (bool_decide (oldDst = [])) eqn:Hold;
    destruct (overwrite_dest self) eqn:Hov; simpl; try (left; reflexivity).
  all: destruct (bool_decide (dst = oldDst)) eqn:Hsame; simpl;
    try (left; reflexivity).
  all: destruct (bool_decide (dst = [])) eqn:Hnil; simpl;
    try (left; reflexivity).
  all: apply bool_decide_eq_false in Hsame, Hnil.
  all: right; split; [exact Hsame|]; split; [exact Hnil|].
  all: split;
    [first [ left; apply bool_decide_eq_true in Hold; exact Hold
           | right; reflexivity ]|].
  all: destruct (note_id n =? 0)%Z eqn:Hid; simpl.
  all: try (apply Z.eqb_eq in Hid; split; [reflexivity|]; left; done).
  all: apply Z.eqb_neq in Hid.
  all: destruct (flush (note_with n (dst_field self) dst) (st_col st1))
         as [[u|e] col']; simpl; split; try reflexivity; right; done.
Qed.

(** X17: the dirty flag that [addKanji] returns is exact: it is [True]
    when the incoming flag was [True] or the note was changed, and only
    then. *)
Theorem addKanji_flag_exact (self : Profile) (flag : bool)
    (idx : option Z) (st : state) (b : bool) :
  (addKanji self flag idx st).1 = Return b ->
  (b = true <->
   flag = true \/ st_note (addKanji self flag idx st).2 <> st_note st).
Proof.
  destruct (addKanji_paths self flag idx st)
    as [i _ _ | i f _ _ _ | _ _ | raw _ _ _ | raw oldDst Hrel Hsrc Hdst];
    simpl; try discriminate.
  - intros [= <-]. split; [tauto | intros [H|H]; [exact H | contradiction]].
  - pose proof (colorize_loop_frame self
                  (characters_to_colorize self (media_strip raw)) [] st)
      as [Hnote _].
    destruct (colorize_loop self _ [] st) as [[dst|e] st1]; simpl in Hnote;
      [|discriminate].
    destruct (after_loop_Return self flag (st_note st) oldDst dst st1)
      as [-> | (Hdiff & _ & _ & Hn & Hrest)].
    + simpl. intros [= <-]. rewrite Hnote.
      split; [tauto | intros [H|H]; [exact H | contradiction]].
    + rewrite Hn. intros Hb.
      assert (b = true) as ->.
      { destruct Hrest as [(_ & Hr & _) | (_ & Hr & _)];
          rewrite Hr in Hb; [congruence|].
        destruct (flush _ _).1; congruence. }
      split; [|reflexivity]. intros _. right.
      apply (note_with_changes _ _ oldDst); assumption.
Qed.

(** X18: whatever the outcome, [addKanji] changes nothing of the note but
    the value of the destination field: id, model and the set of fields
    stay as they were, and so does the value of every field other than the
    destination field; the source field is among them when it is not the
    destination field as well. *)
Theorem addKanji_touches_destination_only (self : Profile) (flag : bool)
    (idx : option Z) (st : state) :
  let n' := st_note (addKanji self flag idx st).2 in
  note_id n' = note_id (st_note st) /\
  note_model n' = note_model (st_note st) /\
  dom (note_fields n') = dom (note_fields (st_note st)) /\
  (forall k, k <> dst_field self ->
     note_fields n' !! k = note_fields (st_note st) !! k) /\
  (src_field self <> dst_field self ->
     note_fields n' !! src_field self
     = note_fields (st_note st) !! src_field self).
Proof.
  intros n'.
  assert (note_id n' = note_id (st_note st) /\
          note_model n' = note_model (st_note st) /\
          dom (note_fields n') = dom (note_fields (st_note st)) /\
          (forall k, k <> dst_field self ->
             note_fields n' !! k = note_fields (st_note st) !! k))
    as (Hid & Hmodel & Hdom & Hother).
  { subst n'.
    destruct (addKanji_paths self flag idx st)
      as [i _ _ | i f _ _ _ | _ _ | raw _ _ _ | raw oldDst Hrel Hsrc Hdst];
      simpl; try done.
    pose proof (colorize_loop_frame self
                  (characters_to_colorize self (media_strip raw)) [] st)
      as [Hnote _].
    destruct (colorize_loop self _ [] st) as [[dst|e] st1]; simpl in Hnote;
      [|simpl; rewrite Hnote; done].
    destruct (after_loop_Return self flag (st_note st) oldDst dst st1)
      as [-> | (_ & _ & _ & -> & _)].
    - simpl. rewrite Hnote. done.
    - simpl. split; [done|]. split; [done|]. split.
      + apply dom_insert_lookup_L. eauto.
      + intros k Hk. apply lookup_insert_ne. congruence. }
  split; [exact Hid|]. split; [exact Hmodel|]. split; [exact Hdom|].
  split; [exact Hother|].
  intros Hsd. apply Hother, Hsd.
Qed.

(** X19: a note is flushed exactly when it has an id other than 0 and was
    changed; the flush is then the last call, made once, on the changed
    note. *)
Theorem addKanji_flushes_changed_stored_note (self : Profile) (flag : bool)
    (idx : option Z) (st : state) :
  let r := addKanji self flag idx st in
  exists calls,
    Forall (fun c => ~ is_flush c) calls /\
    (((st_note r.2 = st_note st \/ note_id (st_note st) = 0%Z) /\
      st_calls r.2 = st_calls st ++ calls) \/
     (st_note r.2 <> st_note st /\ note_id (st_note st) <> 0%Z /\
      st_calls r.2 = st_calls st ++ calls ++ [Flush (st_note r.2)])).
Proof.
  assert (forall o : outcome bool, exists calls,
            Forall (fun c => ~ is_flush c) calls /\
            (((st_note (o, st).2 = st_note st \/
               note_id (st_note st) = 0%Z) /\
              st_calls (o, st).2 = st_calls st ++ calls) \/
             (st_note (o, st).2 <> st_note st /\
              note_id (st_note st) <> 0%Z /\
              st_calls (o, st).2
              = st_calls st ++ calls ++ [Flush (st_note (o, st).2)])))
    as Hsame.
  { intros o. exists []. split; [constructor|]. left. simpl.
    rewrite app_nil_r. tauto. }
  destruct (addKanji_paths self flag idx st)
    as [i _ _ | i f _ _ _ | _ _ | raw _ _ _ | raw oldDst Hrel Hsrc Hdst];
    try apply Hsame.
  pose proof (colorize_loop_frame self
                (characters_to_colorize self (media_strip raw)) [] st)
    as (Hnote & calls & Hcalls & Hnf).
  exists calls. split; [exact Hnf|].
  destruct (colorize_loop self _ [] st) as [[dst|e] st1];
    simpl in Hnote, Hcalls; [|left; simpl; tauto].
  destruct (after_loop_Return self flag (st_note st) oldDst dst st1)
    as [-> | (Hdiff & _ & _ & Hn & Hrest)]; [left; simpl; tauto|].
  rewrite Hn.
  pose proof (note_with_changes _ _ _ dst Hdst Hdiff) as Hch.
  destruct Hrest as [(Hid & _ & _ & ->) | (Hid & _ & _ & ->)].
  - left. split; [right; exact Hid | exact Hcalls].
  - right. rewrite Hcalls, app_assoc. done.
Qed.

Lemma py_index_None {A} (l : list A) (i : Z) :
  py_index l i = None <->
  (Z.of_nat (length l) <= i \/ i < - Z.of_nat (length l))%Z.
Proof.
  unfold py_index.
  destruct (0 <=? i)%Z eqn:H0; [apply Z.leb_le in H0|apply Z.leb_gt in H0].
  - rewrite lookup_ge_None. lia.
  - destruct (- Z.of_nat (length l) <=? i)%Z eqn:H1;
      [apply Z.leb_le in H1|apply Z.leb_gt in H1].
    + rewrite lookup_ge_None. lia.
    + split; [lia | reflexivity].
Qed.

(** X20: what [addKanji] needs is checked before anything is rendered: an
    index outside the model's fields (counting from the end when negative)
    raises [IndexError], a note without the source field or without the
    destination field raises [KeyError] with that field's name, and the
    state is as it was. *)
Theorem addKanji_checks_before_rendering (self : Profile) (flag : bool)
    (st : state) :
  (forall i,
     (Z.of_nat (length (flds (note_model (st_note st)))) <= i \/
      i < - Z.of_nat (length (flds (note_model (st_note st)))))%Z ->
     addKanji self flag (Some i) st = (Raise IndexError, st)) /\
  (forall idx,
     exited_source_field self idx (st_note st) ->
     note_fields (st_note st) !! src_field self = None ->
     addKanji self flag idx st = (Raise (KeyError (src_field self)), st)) /\
  (forall idx,
     exited_source_field self idx (st_note st) ->
     is_Some (note_fields (st_note st) !! src_field self) ->
     note_fields (st_note st) !! dst_field self = None ->
     addKanji self flag idx st = (Raise (KeyError (dst_field self)), st)).
Proof.
  split; [|split].
  - intros i Hi. apply addKanji_bad_index, py_index_None, Hi.
  - intros idx. apply addKanji_no_source.
  - intros idx Hrel [raw Hsrc]. apply (addKanji_no_destination _ _ _ _ raw);
      assumption.
Qed.

Lemma after_loop_stores (self : Profile) (flag : bool) (n : note)
    (oldDst dst : pystr) (st1 : state) :
  stores self oldDst dst = false ->
  after_loop self flag n oldDst (Return dst, st1) = (Return flag, st1).
Proof.
  unfold stores, after_loop.
  destruct (negb (bool_decide (oldDst = [])) && negb (overwrite_dest self));
    [reflexivity|].
  simpl. intros ->. reflexivity.
Qed.

(** X21: an empty destination field is filled whether or not overwriting
    is on: markup that is not empty is stored there. *)
Theorem addKanji_fills_empty_destination (self : Profile) (flag : bool)
    (idx : option Z) (st st1 : state) (raw dst : pystr) :
  exited_source_field self idx (st_note st) ->
  note_fields (st_note st) !! src_field self = Some raw ->
  note_fields (st_note st) !! dst_field self = Some [] ->
  colorize_loop self (characters_to_colorize self (media_strip raw)) [] st
    = (Return dst, st1) ->
  dst <> [] ->
  note_fields (st_note (addKanji self flag idx st).2) !! dst_field self
    = Some dst /\
  (note_id (st_note st) = 0%Z ->
   (addKanji self flag idx st).1 = Return true).
Proof.
  intros Hrel Hsrc Hdst Hloop Hne.
  rewrite (addKanji_after_loop self flag idx st raw [] Hrel Hsrc Hdst), Hloop.
  simpl. rewrite !(bool_decide_eq_false_2 _ Hne). simpl.
  destruct (note_id (st_note st) =? 0)%Z eqn:Hid; simpl.
  - split; [apply lookup_insert_eq | reflexivity].
  - apply Z.eqb_neq in Hid.
    destruct (flush _ (st_col st1)) as [[u|e] col']; simpl;
      (split; [apply lookup_insert_eq | intros Hid'; contradiction]).
Qed.

Lemma characters_to_colorize_nil (self : Profile) :
  characters_to_colorize self [] = [].
Proof.
  unfold characters_to_colorize.
  destruct (py_eq_str _ _); [reflexivity|].
  destruct (py_eq_str _ _); reflexivity.
Qed.

(** X22: a source field that is empty once its media markup is stripped
    leaves everything as it was, whatever the policy and the overwrite
    setting. *)
Theorem addKanji_empty_source (self : Profile) (flag : bool)
    (idx : option Z) (st : state) (raw oldDst : pystr) :
  exited_source_field self idx (st_note st) ->
  note_fields (st_note st) !! src_field self = Some raw ->
  note_fields (st_note st) !! dst_field self = Some oldDst ->
  media_strip raw = [] ->
  addKanji self flag idx st = (Return flag, st).
Proof.
  intros Hrel Hsrc Hdst Hstrip.
  rewrite (addKanji_after_loop self flag idx st raw oldDst Hrel Hsrc Hdst).
  rewrite Hstrip, characters_to_colorize_nil. simpl.
  destruct (negb (bool_decide (oldDst = [])) && negb (overwrite_dest self));
    [reflexivity|].
  rewrite andb_false_r. reflexivity.
Qed.

Lemma img_tag_not_nil (anki_fname : pystr) : img_tag anki_fname <> [].
Proof. discriminate. Qed.

(** X23: the loop only appends to the markup, and appends nothing exactly
    when KanjiVG rejected every character. *)
Theorem markup_grows_unless_all_rejected (self : Profile)
    (characters : list pychar) (dst dst' : pystr) (st st' : state) :
  colorize_loop self characters dst st = (Return dst', st') ->
  exists tags,
    dst' = dst ++ tags /\
    (tags = [] <->
     Forall (fun c => ascii_filename c = Raise InvalidCharacterError)
       characters).
Proof.
  revert dst st. induction characters as [|c cs IH]; intros dst st; simpl.
  - intros [= <- <-]. exists []. rewrite app_nil_r. done.
  - unfold bind.
    destruct (colorize_character self c dst st) as [[d|e] st1] eqn:Hone;
      [|discriminate].
    intros Hrest. destruct (IH _ _ Hrest) as (tags & -> & Htags).
    apply colorize_character_Return in Hone
      as [(Hrej & -> & ->) | (f & svg & data & fname & Hf & _ & _ & _ & ->)].
    + exists tags. split; [reflexivity|]. rewrite Htags. split.
      * intros Hcs. constructor; assumption.
      * intros Hall. inversion Hall. assumption.
    + exists (img_tag fname ++ tags). rewrite <- app_assoc.
      split; [reflexivity|]. split.
      * intros Hnil. apply app_eq_nil in Hnil as [Hnil _].
        destruct (img_tag_not_nil _ Hnil).
      * intros Hall. inversion Hall as [|? ? Hc _]. congruence.
Qed.

Lemma renderings_of_app (c : pychar) (l l' : list call) :
  renderings_of c (l ++ l') = (renderings_of c l + renderings_of c l')%nat.
Proof.
  unfold renderings_of. rewrite List.filter_app, length_app. reflexivity.
Qed.

(** X24: nothing is cached: when the loop runs to its end, a character
    that KanjiVG accepts is rendered once for each of its occurrences
    among the selected characters. *)
Theorem rendered_once_per_occurrence (self : Profile)
    (characters : list pychar) (dst dst' : pystr) (st st' : state)
    (c : pychar) :
  colorize_loop self characters dst st = (Return dst', st') ->
  ascii_filename c <> Raise InvalidCharacterError ->
  renderings_of c (st_calls st')
  = (renderings_of c (st_calls st)
     + length (List.filter (N.eqb c) characters))%nat.
Proof.
  intros Hloop Hacc.
  destruct (colorize_loop_Return _ _ _ _ _ _ Hloop) as [-> Hall].
  rewrite renderings_of_app. f_equal. clear Hloop.
  induction Hall as [|x xs Hx _ IH]; [reflexivity|].
  simpl. rewrite renderings_of_app, IH.
  destruct Hx as [Hrej | (f & svg & data & _ & _ & _ & ->)].
  - unfold calls_for. rewrite Hrej.
    destruct (c =? x) eqn:E; [|reflexivity].
    apply N.eqb_eq in E. subst x. contradiction.
  - unfold renderings_of at 1. simpl.
    destruct (c =? x); reflexivity.
Qed.

Lemma after_loop_stored (self : Profile) (flag : bool) (n : note)
    (oldDst dst : pystr) (st1 : state) :
  stores self oldDst dst = true ->
  st_note (after_loop self flag n oldDst (Return dst, st1)).2
  = note_with n (dst_field self) dst.
Proof.
  unfold stores, after_loop.
  destruct (negb (bool_decide (oldDst = [])) && negb (overwrite_dest self));
    [discriminate|].
  simpl. intros ->.
  destruct (negb (note_id n =? 0)%Z); [|reflexivity].
  destruct (flush _ (st_col st1)) as [[u|e] col']; reflexivity.
Qed.

Section StableNames.
(** The name under which the collection stores a file depends on the name
    asked for and on the content only. *)
Hypothesis stable_names :
  forall filename data col col',
    (media_writeData filename data col).1
    = (media_writeData filename data col').1.

Lemma colorize_character_value (self : Profile) (c : pychar) (dst : pystr)
    (st st' : state) :
  (colorize_character self c dst st).1 = (colorize_character self c dst st').1.
Proof using stable_names.
  unfold colorize_character.
  destruct (ascii_filename c) as [filename|e]; [|destruct e; reflexivity].
  run. destruct (get_colored_svg (kanji_colorizer self) c) as [svg|e];
    simpl; [|reflexivity].
  destruct (utf8 svg) as [data|]; simpl; [|reflexivity].
  pose proof (stable_names filename data (st_col st) (st_col st')) as Hn.
  destruct (media_writeData filename data (st_col st)) as [[f1|e1] col1];
    destruct (media_writeData filename data (st_col st')) as [[f2|e2] col2];
    simpl in *; congruence.
Qed.

Lemma colorize_loop_value (self : Profile) (characters : list pychar)
    (dst : pystr) (st st' : state) :
  (colorize_loop self characters dst st).1
  = (colorize_loop self characters dst st').1.
Proof using stable_names.
  revert dst st st'. induction characters as [|c cs IH]; intros dst st st';
    simpl; [reflexivity|].
  unfold bind.
  pose proof (colorize_character_value self c dst st st') as Hc.
  destruct (colorize_character self c dst st) as [[d|e] st1];
    destruct (colorize_character self c dst st') as [[d'|e'] st1'];
    simpl in Hc; try discriminate.
  - injection Hc as <-. apply IH.
  - simpl. congruence.
Qed.

(** X25: when the stored name of a file depends on its name and content
    only, and the source and destination fields differ, [addKanji] is
    idempotent: after a call that returned, a second call leaves the note
    as the first one left it and returns its own incoming flag. *)
Theorem addKanji_second_call_changes_nothing (self : Profile)
    (flag b flag' : bool) (idx : option Z) (st st2 : state) :
  src_field self <> dst_field self ->
  addKanji self flag idx st = (Return b, st2) ->
  exists st3,
    addKanji self flag' idx st2 = (Return flag', st3) /\
    st_note st3 = st_note st2.
Proof using stable_names.
  intros Hsd Hfirst.
  pose proof (addKanji_paths self flag idx st) as Hpath.
  rewrite Hfirst in Hpath.
  inversion Hpath
    as [ | i f Hidx Hi Hf | | | raw oldDst Hrel Hsrc Hdst Hafter ]; subst.
  - exists st2. split; [|reflexivity].
    apply (addKanji_unrelated self flag' i f st2 Hi Hf).
  - pose proof (colorize_loop_frame self
                  (characters_to_colorize self (media_strip raw)) [] st)
      as [Hnote _].
    destruct (colorize_loop self
                (characters_to_colorize self (media_strip raw)) [] st)
      as [[dst|e] st1] eqn:Hloop; simpl in Hnote; [|discriminate Hafter].
    assert (forall st0 oldDst0,
              exited_source_field self idx (st_note st0) ->
              note_fields (st_note st0) !! src_field self = Some raw ->
              note_fields (st_note st0) !! dst_field self = Some oldDst0 ->
              stores self oldDst0 dst = false ->
              exists st3,
                addKanji self flag' idx st0 = (Return flag', st3) /\
                st_note st3 = st_note st0) as Hsecond.
    { intros st0 oldDst0 Hrel0 Hsrc0 Hdst0 Hst0.
      rewrite (addKanji_after_loop self flag' idx st0 raw oldDst0)
        by assumption.
      pose proof (colorize_loop_frame self
                    (characters_to_colorize self (media_strip raw)) [] st0)
        as [Hnote0 _].
      pose proof (colorize_loop_value self
                    (characters_to_colorize self (media_strip raw)) []
                    st0 st) as Hval.
      rewrite Hloop in Hval.
      destruct (colorize_loop self _ [] st0) as [[dst0|e0] st3];
        simpl in Hval, Hnote0; [|discriminate].
      injection Hval as ->.
      exists st3. split; [|exact Hnote0].
      apply after_loop_stores, Hst0. }
    destruct (stores self oldDst dst) eqn:Hst.
    + pose proof (after_loop_stored self flag (st_note st) oldDst dst st1
                    Hst) as Hn.
      rewrite Hafter in Hn. simpl in Hn.
      apply (Hsecond st2 dst).
      * rewrite Hn. destruct idx; exact Hrel.
      * rewrite Hn. simpl. rewrite lookup_insert_ne by congruence.
        exact Hsrc.
      * rewrite Hn. apply lookup_insert_eq.
      * unfold stores. rewrite (bool_decide_eq_true_2 (dst = dst) eq_refl).
        apply andb_false_r.
    + rewrite (after_loop_stores self flag (st_note st) oldDst dst st1 Hst)
        in Hafter.
      injection Hafter as <- <-.
      apply (Hsecond st1 oldDst); rewrite ?Hnote; assumption.
Qed.

End StableNames.

End DiagramMore.

(** ** The hook on leaving a field *)

Section FocusLost.
Context {py : PyStr} {lib : KanjiLib} {host : AnkiHost}.

Lemma onFocusLost_cons (p : Profile) (rest : list Profile) (flag : bool)
    (idx : option Z) (st : state) :
  onFocusLost (p :: rest) flag idx st
  = if matches p (note_model (st_note st))
    then addKanji p flag idx st
    else onFocusLost rest flag idx st.
Proof.
  simpl. unfold bind, get_note, model_is_correct_type, ret, matches.
  destruct (_ && _ && _); reflexivity.
Qed.

(** X26: when no loaded profile is right for the note's model, the hook
    returns the incoming flag and leaves the state as it was. *)
Theorem onFocusLost_no_profile (loaded : list Profile) (flag : bool)
    (idx : option Z) (st : state) :
  Forall (fun p => matches p (note_model (st_note st)) = false) loaded ->
  onFocusLost loaded flag idx st = (Return flag, st).
Proof.
  induction 1 as [|p rest Hp _ IH]; [reflexivity|].
  rewrite onFocusLost_cons, Hp. exact IH.
Qed.

(** X27: the hook acts through the first loaded profile that is right for
    the note's model, and through that one only: the profiles after it are
    not looked at, whether they match or not. *)
Theorem onFocusLost_first_match (before rest : list Profile) (p : Profile)
    (flag : bool) (idx : option Z) (st : state) :
  Forall (fun q => matches q (note_model (st_note st)) = false) before ->
  matches p (note_model (st_note st)) = true ->
  onFocusLost (before ++ p :: rest) flag idx st = addKanji p flag idx st.
Proof.
  intros Hbefore Hp. induction Hbefore as [|q qs Hq _ IH]; simpl app.
  - rewrite onFocusLost_cons, Hp. reflexivity.
  - rewrite onFocusLost_cons, Hq. exact IH.
Qed.

Lemma matches_fields (p : Profile) (m : model) :
  matches p m = true ->
  src_field p ∈ fieldNames m /\ dst_field p ∈ fieldNames m.
Proof.
  unfold matches. intros H.
  apply andb_true_iff in H as [H Hd]. apply andb_true_iff in H as [_ Hs].
  apply bool_decide_eq_true in Hs, Hd. done.
Qed.

(** X28: on a note that has a value for every field of its model, with an
    exited index inside the model's fields (or none), the hook never fails
    on the note itself: it returns the incoming flag with the state as it
    was, or it reads both fields of a matching profile and goes on to that
    profile's loop. *)
Theorem onFocusLost_reads_its_fields (loaded : list Profile) (flag : bool)
    (idx : option Z) (st : state) :
  well_formed (st_note st) ->
  (forall i, idx = Some i ->
     is_Some (py_index (flds (note_model (st_note st))) i)) ->
  onFocusLost loaded flag idx st = (Return flag, st) \/
  exists p raw oldDst,
    p ∈ loaded /\
    matches p (note_model (st_note st)) = true /\
    note_fields (st_note st) !! src_field p = Some raw /\
    note_fields (st_note st) !! dst_field p = Some oldDst /\
    onFocusLost loaded flag idx st
    = after_loop p flag (st_note st) oldDst
        (colorize_loop p (characters_to_colorize p (media_strip raw)) []
           st).
Proof.
  intros Hwf Hidx. induction loaded as [|p rest IH]; [left; reflexivity|].
  rewrite onFocusLost_cons.
  destruct (matches p (note_model (st_note st))) eqn:Hp.
  - destruct (matches_fields _ _ Hp) as [Hs Hd].
    apply Hwf in Hs as [raw Hsrc]. apply Hwf in Hd as [oldDst Hdst].
    destruct (addKanji_paths p flag idx st)
      as [i Hi Hnone | i f _ _ _ | _ Hno | raw' _ _ Hno
         | raw' oldDst' _ Hsrc' Hdst'].
    + destruct (Hidx i Hi) as [f Hf]. congruence.
    + left. reflexivity.
    + congruence.
    + congruence.
    + right. exists p, raw', oldDst'.
      split; [left|]. split; [exact Hp|]. done.
  - destruct IH as [IH | (q & raw & oldDst & Hq & Hrest)]; [left; exact IH|].
    right. exists q, raw, oldDst. split; [right; exact Hq | exact Hrest].
Qed.

End FocusLost.

(** ** The menu commands *)

Section MenuCommands.
Context {py : PyStr} {lib : KanjiLib} {host : AnkiHost} {menu : AnkiMenu}.

(** X29: each command does nothing when the user declines the question
    it asks: apart from what that dialog itself did to the host, the state
    is as it was, no note is loaded and nothing is rendered, written or
    flushed. *)
Theorem commands_need_confirmation (loaded : list Profile) (st : state) :
  (forall col',
     askUser regenerate_all_question (st_col st) = (Return false, col') ->
     regenerate_all loaded st
     = (Return tt,
        {| st_note := st_note st; st_col := col';
           st_calls := st_calls st |})) /\
  (forall col',
     askUser generate_for_new_question (st_col st) = (Return false, col') ->
     generate_for_new loaded st
     = (Return tt,
        {| st_note := st_note st; st_col := col';
           st_calls := st_calls st |})).
Proof.
  split; intros col' Hno.
  - unfold regenerate_all, bind, on_collection.
    fold regenerate_all_question. rewrite Hno. reflexivity.
  - unfold generate_for_new, bind, on_collection.
    fold generate_for_new_question. rewrite Hno. reflexivity.
Qed.

(** The model ids that [generate_for_new] finds for a profile. *)
Lemma generate_for_new_from_cons (p : Profile) (rest : list Profile)
    (st st1 st2 : state) (ids model_ids : list Z) :
  on_collection models_ids st = (Return ids, st1) ->
  comprehension_if
    (fun mid =>
       bind (on_collection (models_get mid))
         (fun m => match m with
                   | Some m => model_is_correct_type p m
                   | None => raise TypeError
                   end))
    ids st1 = (Return model_ids, st2) ->
  generate_for_new_from (p :: rest) st
  = match model_ids with
    | [] =>
        on_collection
          (showInfo
             (lit "Can not find any relevant models. Make sure model, src-field,-and dst-field are set correctly in your config."))
          st2
    | _ :: _ =>
        bind (on_collection (findNotes (search_str p model_ids)))
          (fun note_ids =>
             bind (for_each (addKanji_of_note p) note_ids)
               (fun _ => generate_for_new_from rest)) st2
    end.
Proof.
  intros Hids Hfilter. simpl.
  rewrite (bind_Return _ _ _ _ _ Hids), (bind_Return _ _ _ _ _ Hfilter).
  destruct model_ids; reflexivity.
Qed.

(** X30: [generate_for_new] ends at the first profile for which no model
    is right: it shows the message about the configuration and returns, so
    that the profiles after it are not processed, whatever they are, and
    the closing message is not shown. *)
Theorem generate_for_new_stops_without_model (p : Profile)
    (rest rest' : list Profile) (st st1 st2 : state) (ids : list Z) :
  on_collection models_ids st = (Return ids, st1) ->
  comprehension_if
    (fun mid =>
       bind (on_collection (models_get mid))
         (fun m => match m with
                   | Some m => model_is_correct_type p m
                   | None => raise TypeError
                   end))
    ids st1 = (Return [], st2) ->
  generate_for_new_from (p :: rest) st
  = on_collection
      (showInfo
         (lit "Can not find any relevant models. Make sure model, src-field,-and dst-field are set correctly in your config."))
      st2 /\
  generate_for_new_from (p :: rest) st = generate_for_new_from (p :: rest') st.
Proof.
  intros Hids Hfilter.
  rewrite (generate_for_new_from_cons p rest st st1 st2 ids [] Hids Hfilter).
  rewrite (generate_for_new_from_cons p rest' st st1 st2 ids [] Hids Hfilter).
  split; reflexivity.
Qed.

End MenuCommands.

(** ** The further properties on the demonstration host *)

Lemma empty_substring_matches_every_name_witness :
  model_is_correct_type (py := Demo.pystr_impl) (host := Demo.host)
    (Build_Profile (lib := Demo.lib)
       (lit "--mode spectrum --saturation 1 --value 1 --image-size 327")
       [] (lit "Kanji") (lit "Diagram") true PNone)
    Demo.japanese_model (Demo.start (Demo.a_note 0 [] []))
  = (Return true, Demo.start (Demo.a_note 0 [] [])).
Proof.
  apply (empty_substring_matches_every_name (py := Demo.pystr_impl)
           (host := Demo.host)
           (<[lit "model" := PStr []]> (Demo.config PNone))).
  - vm_compute. reflexivity.
  - vm_compute. reflexivity.
  - split; apply list_elem_of_In; simpl; tauto.
Defined.

Lemma matching_ignores_case_of_name_witness :
  model_is_correct_type (py := Demo.pystr_impl) (host := Demo.host)
    (Demo.profile PNone true) Demo.japanese_model
    (Demo.start (Demo.a_note 0 [] []))
  = model_is_correct_type (py := Demo.pystr_impl) (host := Demo.host)
      (Demo.profile PNone true)
      {| name := lit "JAPANESE (core 2000)";
         flds := flds Demo.japanese_model |}
      (Demo.start (Demo.a_note 0 [] [])).
Proof.
  apply (matching_ignores_case_of_name (py := Demo.pystr_impl)
           (host := Demo.host)).
  - apply Forall_forall. intros c Hc. apply list_elem_of_In in Hc.
    simpl in Hc. repeat (destruct Hc as [<-|Hc]; [reflexivity|]).
    destruct Hc.
  - apply Forall_forall. intros c Hc. apply list_elem_of_In in Hc.
    simpl in Hc. repeat (destruct Hc as [<-|Hc]; [reflexivity|]).
    destruct Hc.
  - reflexivity.
  - reflexivity.
Defined.

Lemma configured_substring_ignores_case_witness :
  Profile_init (py := Demo.pystr_impl) (lib := Demo.lib)
    (<[lit "model" := PStr (lit "Japanese")]> (Demo.config PNone))
  = Profile_init (py := Demo.pystr_impl) (lib := Demo.lib)
      (<[lit "model" := PStr (lit "JAPANESE")]> (Demo.config PNone)).
Proof.
  apply (configured_substring_ignores_case (py := Demo.pystr_impl)
           (lib := Demo.lib)).
  - repeat constructor.
  - repeat constructor.
  - reflexivity.
Defined.

Lemma matching_monotone_in_fields_witness :
  model_is_correct_type (py := Demo.pystr_impl) (host := Demo.host)
    (Demo.profile PNone true)
    {| name := lit "Japanese (Core 2000)";
       flds := [ {| fld_name := lit "Diagram" |};
                 {| fld_name := lit "Audio" |};
                 {| fld_name := lit "Reading" |};
                 {| fld_name := lit "Kanji" |} ] |}
    (Demo.start (Demo.a_note 0 [] []))
  = (Return true, Demo.start (Demo.a_note 0 [] [])).
Proof.
  apply (matching_monotone_in_fields (py := Demo.pystr_impl)
           (host := Demo.host) (Demo.profile PNone true)
           Demo.japanese_model).
  - reflexivity.
  - intros k Hk. apply list_elem_of_In in Hk. apply list_elem_of_In.
    simpl in *. tauto.
  - reflexivity.
Defined.

Lemma default_profile_matches_japanese_witness :
  exists self,
    Profile_init (py := Demo.pystr_impl) (lib := Demo.lib)
      (Demo.config PNone) = Return self /\
    model_is_correct_type (py := Demo.pystr_impl) (host := Demo.host)
      self Demo.japanese_model (Demo.start (Demo.a_note 0 [] []))
    = (Return true, Demo.start (Demo.a_note 0 [] [])).
Proof.
  eexists. split; [vm_compute; reflexivity|].
  apply (default_profile_matches_japanese (py := Demo.pystr_impl)
           (host := Demo.host) (Demo.config PNone)).
  - vm_compute. reflexivity.
  - vm_compute. reflexivity.
  - vm_compute. reflexivity.
  - vm_compute. reflexivity.
  - split; [|split; apply list_elem_of_In; simpl; tauto].
    exists [], (lit " (core 2000)"). reflexivity.
Defined.

Lemma addKanji_flag_exact_witness :
  st_note (addKanji (Demo.profile PNone true) false None
             (Demo.start (Demo.a_note 7 Demo.mixed_text []))).2
  <> st_note (Demo.start (Demo.a_note 7 Demo.mixed_text [])).
Proof.
  pose proof (addKanji_flag_exact (Demo.profile PNone true) false None
                (Demo.start (Demo.a_note 7 Demo.mixed_text [])) true)
    as H.
  destruct H as [H _]; [vm_compute; reflexivity|].
  destruct (H eq_refl) as [Hflag | Hnote]; [discriminate | exact Hnote].
Defined.

Lemma addKanji_fills_empty_destination_witness :
  (addKanji (Demo.profile PNone false) false None
     (Demo.start (Demo.a_note 0 Demo.mixed_text []))).1
  = Return true.
Proof.
  apply (addKanji_fills_empty_destination (Demo.profile PNone false) false
           None (Demo.start (Demo.a_note 0 Demo.mixed_text []))
           (colorize_loop (Demo.profile PNone false) [26085; 26412] []
              (Demo.start (Demo.a_note 0 Demo.mixed_text []))).2
           Demo.mixed_text
           (img_tag ([26085] ++ lit ".svg") ++
            img_tag ([26412] ++ lit ".svg"))).
  - exact I.
  - vm_compute. reflexivity.
  - vm_compute. reflexivity.
  - vm_compute. reflexivity.
  - discriminate.
  - reflexivity.
Defined.

Lemma addKanji_empty_source_witness :
  addKanji (Demo.profile (PStr (lit "all")) true) true None
    (Demo.start (Demo.a_note 7 [] (lit "old")))
  = (Return true, Demo.start (Demo.a_note 7 [] (lit "old"))).
Proof.
  apply (addKanji_empty_source (Demo.profile (PStr (lit "all")) true) true
           None (Demo.start (Demo.a_note 7 [] (lit "old"))) [] (lit "old")).
  - exact I.
  - vm_compute. reflexivity.
  - vm_compute. reflexivity.
  - reflexivity.
Defined.

Lemma markup_grows_unless_all_rejected_witness :
  exists tags,
    img_tag ([26085] ++ lit ".svg") = [] ++ tags /\
    (tags = [] <->
     Forall (fun c => ascii_filename (KanjiLib := Demo.lib) c
                      = Raise InvalidCharacterError) [97; 26085]).
Proof.
  apply (markup_grows_unless_all_rejected (host := Demo.host)
           (Demo.profile PNone true) [97; 26085] []
           (img_tag ([26085] ++ lit ".svg"))
           (Demo.start (Demo.a_note 7 [] []))
           (colorize_loop (Demo.profile PNone true) [97; 26085] []
              (Demo.start (Demo.a_note 7 [] []))).2).
  vm_compute. reflexivity.
Defined.

Lemma rendered_once_per_occurrence_witness :
  renderings_of 26085
    (st_calls (colorize_loop (Demo.profile PNone true)
                 [26085; 97; 26085] []
                 (Demo.start (Demo.a_note 7 [] []))).2)
  = 2%nat.
Proof.
  apply (rendered_once_per_occurrence (Demo.profile PNone true)
           [26085; 97; 26085] []
           (img_tag ([26085] ++ lit ".svg") ++
            img_tag ([26085] ++ lit ".svg"))
           (Demo.start (Demo.a_note 7 [] []))).
  - vm_compute. reflexivity.
  - discriminate.
Defined.

Lemma addKanji_second_call_changes_nothing_witness :
  exists st3,
    addKanji (Demo.profile PNone true) false None
      (addKanji (Demo.profile PNone true) false None
         (Demo.start (Demo.a_note 7 Demo.mixed_text []))).2
    = (Return false, st3) /\
    st_note st3
    = st_note (addKanji (Demo.profile PNone true) false None
                 (Demo.start (Demo.a_note 7 Demo.mixed_text []))).2.
Proof.
  apply (addKanji_second_call_changes_nothing (host := Demo.host)
           (fun _ _ _ _ => eq_refl)
           (Demo.profile PNone true) false true false None
           (Demo.start (Demo.a_note 7 Demo.mixed_text []))).
  - discriminate.
  - vm_compute. reflexivity.
Defined.

Lemma onFocusLost_no_profile_witness :
  onFocusLost (py := Demo.pystr_impl)
    [Build_Profile (lib := Demo.lib) [] (lit "chinese") (lit "Hanzi")
       (lit "Diagram") true PNone]
    true None (Demo.start (Demo.a_note 7 Demo.mixed_text []))
  = (Return true, Demo.start (Demo.a_note 7 Demo.mixed_text [])).
Proof.
  apply (onFocusLost_no_profile (py := Demo.pystr_impl)).
  constructor; [vm_compute; reflexivity | constructor].
Defined.

Lemma onFocusLost_first_match_witness :
  onFocusLost (py := Demo.pystr_impl)
    ([Build_Profile (lib := Demo.lib) [] (lit "chinese") (lit "Hanzi")
        (lit "Diagram") true PNone]
     ++ Demo.profile PNone true :: [Demo.profile (PStr (lit "all")) true])
    false None (Demo.start (Demo.a_note 7 Demo.mixed_text []))
  = addKanji (Demo.profile PNone true) false None
      (Demo.start (Demo.a_note 7 Demo.mixed_text [])).
Proof.
  apply (onFocusLost_first_match (py := Demo.pystr_impl)).
  - constructor; [vm_compute; reflexivity | constructor].
  - vm_compute. reflexivity.
Defined.

Lemma onFocusLost_reads_its_fields_witness :
  well_formed (Demo.a_note 7 Demo.mixed_text []) /\
  (onFocusLost (py := Demo.pystr_impl) [Demo.profile PNone true] false
     (Some 0%Z) (Demo.start (Demo.a_note 7 Demo.mixed_text []))).1
  = Return true.
Proof.
  assert (well_formed (Demo.a_note 7 Demo.mixed_text [])) as Hwf.
  { intros k Hk. apply list_elem_of_In in Hk. simpl in Hk.
    destruct Hk as [<-|[<-|[<-|[]]]]; vm_compute; eauto. }
  split; [exact Hwf|].
  destruct (onFocusLost_reads_its_fields (py := Demo.pystr_impl)
              [Demo.profile PNone true] false (Some 0%Z)
              (Demo.start (Demo.a_note 7 Demo.mixed_text [])) Hwf)
    as [Hflag | (p & raw & oldDst & _ & _ & _ & _ & _)].
  - intros i [= <-]. vm_compute. eauto.
  - vm_compute in Hflag. discriminate Hflag.
  - vm_compute. reflexivity.
Defined.

Lemma commands_need_confirmation_witness :
  regenerate_all (py := Demo.pystr_impl)
    (menu := demo_menu_declining regenerate_all_question)
    [Demo.profile PNone true]
    (Demo.start (Demo.a_note 7 Demo.mixed_text []))
  = (Return tt, Demo.start (Demo.a_note 7 Demo.mixed_text [])) /\
  generate_for_new (py := Demo.pystr_impl)
    (menu := demo_menu_declining generate_for_new_question)
    [Demo.profile PNone true]
    (Demo.start (Demo.a_note 7 Demo.mixed_text []))
  = (Return tt, Demo.start (Demo.a_note 7 Demo.mixed_text [])) /\
  askUser (AnkiMenu := demo_menu_declining regenerate_all_question)
    generate_for_new_question []
  = (Return true, []).
Proof.
  split; [|split].
  - apply (proj1 (commands_need_confirmation (py := Demo.pystr_impl)
             (menu := demo_menu_declining regenerate_all_question)
             [Demo.profile PNone true]
             (Demo.start (Demo.a_note 7 Demo.mixed_text [])))).
    vm_compute. reflexivity.
  - apply (proj2 (commands_need_confirmation (py := Demo.pystr_impl)
             (menu := demo_menu_declining generate_for_new_question)
             [Demo.profile PNone true]
             (Demo.start (Demo.a_note 7 Demo.mixed_text [])))).
    vm_compute. reflexivity.
  - vm_compute. reflexivity.
Defined.

Lemma generate_for_new_stops_without_model_witness :
  generate_for_new_from (py := Demo.pystr_impl) (menu := demo_menu true)
    (Build_Profile (lib := Demo.lib) [] (lit "chinese") (lit "Hanzi")
       (lit "Diagram") true PNone
     :: [Demo.profile PNone true])
    (Demo.start (Demo.a_note 7 Demo.mixed_text []))
  = (Return tt, Demo.start (Demo.a_note 7 Demo.mixed_text [])).
Proof.
  apply (generate_for_new_stops_without_model (py := Demo.pystr_impl)
           (menu := demo_menu true) _ [Demo.profile PNone true] []
           (Demo.start (Demo.a_note 7 Demo.mixed_text []))
           (Demo.start (Demo.a_note 7 Demo.mixed_text []))
           (Demo.start (Demo.a_note 7 Demo.mixed_text []))
           [10%Z]).
  - reflexivity.
  - vm_compute. reflexivity.
Defined.
